(** * multiply_post_processing: the post-processing orchestration pipeline

    A shallow embedding of [multiply_post_processing/post_processing.py]
    and the properties of its registry, its spatial-reference resolver,
    its two run paths and its output writer.

    Conventions of the embedding:
    - a Python [int] is a [Z], a Python [float] is a primitive binary64
      [float], a [str] is a [string], a [list] is a [list], [None] in an
      [Optional] is [None];
    - a [dict] is an association list in insertion order, the order in
      which Python iterates it;
    - an exception is the [Raise] of a [Result]; the calls a run makes on
      its collaborators (loggers, the processor plug-in, the GeoTiff
      writer) are the events of a trace, in the order they are made. *)

From Stdlib Require Import ZArith List String Ascii Bool Lia Floats Uint63.
From Stdlib Require Import Permutation.
Import ListNotations.

Local Open Scope string_scope.
Local Open Scope Z_scope.

(** ** Exceptions and results *)

Inductive PyError : Type :=
| ValueError (msg : string)
| IndexError (msg : string)
| OverflowError (msg : string)
| ZeroDivisionError (msg : string).

Inductive Result (A : Type) : Type :=
| Ok (a : A)
| Raise (e : PyError).
Arguments Ok {A} a.
Arguments Raise {A} e.

Definition rbind {A B : Type} (r : Result A) (k : A -> Result B) : Result B :=
  match r with
  | Ok a => k a
  | Raise e => Raise e
  end.

Declare Scope result_scope.
Delimit Scope result_scope with result.
Notation "x <- c ;; k" := (rbind c (fun x => k))
  (at level 61, c at next level, right associativity) : result_scope.

(** ** Python built-ins used by the module *)

Module Py.

(** [seq[i]] for a non-negative index. *)
Definition index {A : Type} (l : list A) (i : nat) : Result A :=
  match nth_error l i with
  | Some a => Ok a
  | None => Raise (IndexError "list index out of range")
  end.

(** [str.split(sep)] for a one-character separator: never empty. *)
Fixpoint split (sep : ascii) (s : string) : list string :=
  match s with
  | EmptyString => [EmptyString]
  | String c r =>
      if Ascii.eqb c sep then EmptyString :: split sep r
      else match split sep r with
           | h :: t => String c h :: t
           | [] => [String c EmptyString]
           end
  end.

(** White space as [str.strip] and [int] see it, within ASCII. *)
Definition isspace (c : ascii) : bool :=
  let n := nat_of_ascii c in
  ((9 <=? n)%nat && (n <=? 13)%nat) || ((28 <=? n)%nat && (n <=? 32)%nat).

Fixpoint lstrip (s : string) : string :=
  match s with
  | EmptyString => EmptyString
  | String c r => if isspace c then lstrip r else s
  end.

Fixpoint rstrip (s : string) : string :=
  match s with
  | EmptyString => EmptyString
  | String c r =>
      match rstrip r with
      | EmptyString => if isspace c then EmptyString else String c EmptyString
      | r' => String c r'
      end
  end.

Definition strip (s : string) : string := rstrip (lstrip s).

Definition digit_value (c : ascii) : option Z :=
  let n := nat_of_ascii c in
  if ((48 <=? n)%nat && (n <=? 57)%nat) then Some (Z.of_nat n - 48) else None.

(** The digits of a decimal literal: one or more digits, single
    underscores allowed between two digits. *)
Fixpoint digits (s : string) (acc : Z) (after_digit : bool) : option Z :=
  match s with
  | EmptyString => if after_digit then Some acc else None
  | String c r =>
      match digit_value c with
      | Some d => digits r (10 * acc + d) true
      | None =>
          if (Ascii.eqb c "_" && after_digit)%bool then digits r acc false
          else None
      end
  end.

(** An approximation of [repr] for the text of an error message. *)
Definition quote (s : string) : string := "'" ++ s ++ "'".

(** [int(s)] for a string [s], base 10. *)
Definition int (s : string) : Result Z :=
  let body := strip s in
  let parsed :=
    match body with
    | String "-" r => option_map Z.opp (digits r 0 false)
    | String "+" r => digits r 0 false
    | _ => digits body 0 false
    end in
  match parsed with
  | Some z => Ok z
  | None => Raise (ValueError ("invalid literal for int() with base 10: " ++ quote s))
  end.

(** [template.format(args...)] for templates whose only replacement
    fields are [{}], as all templates of this module are. *)
Fixpoint format (template : string) (args : list string) : Result string :=
  match template with
  | EmptyString => Ok EmptyString
  | String "{" (String "}" rest) =>
      match args with
      | a :: args' => (r <- format rest args' ;; Ok (a ++ r))%result
      | [] => Raise (IndexError "Replacement index out of range for positional args tuple")
      end
  | String c rest => (r <- format rest args ;; Ok (String c r))%result
  end.

(** [str(x)] of an [Optional[str]]. *)
Definition str_of_optional (o : option string) : string :=
  match o with
  | Some s => s
  | None => "None"
  end.

(** [os.path.join(a, b)] on a POSIX system. *)
Definition endswith_slash (s : string) : bool :=
  match get (length s - 1) s with
  | Some c => Ascii.eqb c "/"
  | None => false
  end.

Definition path_join (a b : string) : string :=
  match b with
  | String "/" _ => b
  | _ => if (String.eqb a "" || endswith_slash a)%bool then a ++ b
         else a ++ "/" ++ b
  end.

(** Decimal digits of a natural number, most significant first, padded
    with zeros to [width] characters: the [%0<width>d] of [strftime]. *)
Definition digit_char (d : nat) : ascii := ascii_of_nat (48 + d).

Fixpoint zero_padded (width : nat) (n : nat) : string :=
  match width with
  | O => EmptyString
  | S w => zero_padded w (n / 10) ++ String (digit_char (n mod 10)) EmptyString
  end.

(** ** Floats *)

(** The [float] nearest to an integer: exact below 2^53 =
    9007199254740992 in absolute value, rounded to nearest even beyond. *)
Definition float_of_Z (z : Z) : float :=
  if Z.abs z <? 9007199254740992 then
    let magnitude := PrimFloat.of_uint63 (Uint63.of_Z (Z.abs z)) in
    if z <? 0 then (- magnitude)%float else magnitude
  else SF2Prim (binary_normalize prec emax z 0 false).

(** [int(x)] for a float [x]: truncation towards zero. *)
Definition int_of_float (x : float) : Result Z :=
  match Prim2SF x with
  | S754_zero _ => Ok 0
  | S754_finite s m e =>
      let a := match e with
               | Z0 => Zpos m
               | Zpos p => Z.shiftl (Zpos m) (Zpos p)
               | Zneg p => Z.shiftr (Zpos m) (Zpos p)
               end in
      Ok (if s then - a else a)
  | S754_infinity _ => Raise (OverflowError "cannot convert float infinity to integer")
  | S754_nan => Raise (ValueError "cannot convert float NaN to integer")
  end.

(** [a / b] for two [int]s: true division. The operands of this module
    are counts and indexes, which a [float] holds exactly, so that the
    quotient of the two conversions is the correctly rounded quotient. *)
Definition truediv (a b : Z) : Result float :=
  if b =? 0 then Raise (ZeroDivisionError "division by zero")
  else Ok (float_of_Z a / float_of_Z b)%float.

End Py.

Import Py.

(** ** Data model *)

(** A [shapely] point and a non-empty polygon, by what the module reads
    of them: [Polygon.bounds] is [(minx, miny, maxx, maxy)] and
    [Polygon.centroid.coords[0]] is the coordinate pair of the centroid. *)
Record Point : Type := mkPoint { x : float; y : float }.

Record Polygon : Type := mkPolygon {
  bounds : float * float * float * float;
  centroid : Point
}.

(** The [roi] argument: [Union[str, Polygon]]. *)
Inductive Roi : Type :=
| RoiWkt (wkt : string)
| RoiPolygon (p : Polygon).

(** An [osr.SpatialReference], by the calls that built it. The bindings
    are used as the module imports them, without [UseExceptions]: an
    import that fails reports a code, which the module discards, and
    does not raise. *)
Inductive SpatialReference : Type :=
| ImportFromEPSG (epsg_code : Z)
| ImportFromWkt (wkt : string)
| SetUTM (utm_zone : Z) (is_northern : Z).

(** [multiply_core.util.Reprojection], by its constructor arguments. *)
Record Reprojection : Type := mkReprojection {
  rp_bounds : float * float * float * float;
  x_res : Z;
  y_res : Z;
  destination_srs : SpatialReference;
  roi_srs : SpatialReference
}.

(** A [datetime]. *)
Record datetime : Type := mkDatetime {
  year : nat; month : nat; day : nat;
  hour : nat; minute : nat; second : nat
}.

(** The [time] argument of [_format]: [Union[datetime, str]]. *)
Inductive Time : Type :=
| TimeStr (s : string)
| TimeDatetime (d : datetime).

(** [multiply_core.util.FileRef]. *)
Record FileRef : Type := mkFileRef {
  url : string;
  start_time : string;
  end_time : string
}.

(** A two-dimensional [numpy] array. *)
Definition Array : Type := list (list float).

(** The grid a raster is written on: [RasterXSize], [RasterYSize] and
    [GetGeoTransform()] of a reprojected data set. *)
Record Grid : Type := mkGrid {
  width : Z;
  height : Z;
  geo_transform : list float
}.

(** Modelled from the spec: [multiply_core.variables.Variable], the
    description of an indicator, is declared outside this module; the
    spec's data model gives it a short name and a human-readable
    description and makes two descriptions equal when both are. *)
Record IndicatorDescription : Type := mkIndicatorDescription {
  short_name : string;
  description : string
}.

(** [a == b] on indicator descriptions. *)
Definition IndicatorDescription_eqb (a b : IndicatorDescription) : bool :=
  (String.eqb (short_name a) (short_name b)
   && String.eqb (description a) (description b))%bool.

(** [PostProcessorType] of [post_processor.py], with the two members the
    module dispatches on. *)
Inductive PostProcessorType : Type :=
| EO_DATA_POST_PROCESSOR
| VARIABLE_POST_PROCESSOR.

(** The collaborators of the module: [shapely.wkt.loads], [IsSame] of
    [osr], file discovery and observation assembly of [multiply_core],
    and [gdal]'s reading and reprojection of rasters. *)
Record Collaborators : Type := mkCollaborators {
  loads : string -> Result Polygon;
  IsSame : SpatialReference -> SpatialReference -> bool;
  get_time_from_string : string -> Result datetime;
  get_valid_files : string -> list string -> list FileRef;
  is_valid : string -> string -> bool;
  Observations : Type;
  create_observations : list FileRef -> Reprojection -> Observations;
  get_num_observations : Observations -> Z;
  dates : Observations -> list datetime;
  get_observations_subset : Observations -> datetime -> datetime -> Observations;
  (** [reprojection.reproject(gdal.Open(url)).GetRasterBand(1).ReadAsArray()] *)
  read_reprojected : Reprojection -> string -> Array;
  (** size and geotransform of [reprojection.reproject(_get_dummy_data_set())] *)
  reproject_dummy : Reprojection -> Grid;
  ExportToWkt : SpatialReference -> string
}.

(** A post processor, by the methods the module calls on it. The
    dictionaries it returns are in insertion order. *)
Record PostProcessor (E : Collaborators) : Type := mkPostProcessor {
  get_pp_name : string;
  get_type : PostProcessorType;
  get_names_of_supported_eo_data_types : list string;
  process_observations : Observations E -> list (string * Array);
  process_variables : list (string * Array) -> list (string * Array)
}.
Arguments get_pp_name {E} _.
Arguments get_type {E} _.
Arguments get_names_of_supported_eo_data_types {E} _.
Arguments process_observations {E} _.
Arguments process_variables {E} _.

(** A [PostProcessorCreator], for processors of type [P]. *)
Record PostProcessorCreator (P : Type) : Type := mkCreator {
  get_name : string;
  get_description : string;
  get_indicator_descriptions : list IndicatorDescription;
  create_post_processor : list string -> P
}.
Arguments get_name {P} _.
Arguments get_description {P} _.
Arguments get_indicator_descriptions {P} _.
Arguments create_post_processor {P} _.

(** ** The spatial-reference resolver *)

Module Resolver.

Local Open Scope result_scope.

Definition _get_reference_system (wkt : option string)
  : Result (option SpatialReference) :=
  match wkt with
  | None => Ok None
  | Some wkt =>
      if prefix "EPSG:" wkt then
        code_text <- index (split ":" wkt) 1 ;;
        epsg_code <- int code_text ;;
        Ok (Some (ImportFromEPSG epsg_code))
      else Ok (Some (ImportFromWkt wkt))
  end.

Definition utm_zone_of (lon : float) : Result Z :=
  int_of_float (1 + (lon + 180.0) / 6.0)%float.

Definition is_northern_of (lat : float) : Z :=
  if (0.0 <? lat)%float then 1 else 0.

Definition _get_projected_srs (roi_center : Point) : Result SpatialReference :=
  utm_zone <- utm_zone_of (x roi_center) ;;
  let is_northern := is_northern_of (y roi_center) in
  Ok (SetUTM utm_zone is_northern).

Definition wgs84_srs : SpatialReference := ImportFromEPSG 4326.

Section WithCollaborators.
Context (E : Collaborators).

Definition _get_reprojection (spatial_resolution : Z) (roi : Roi)
    (roi_grid destination_grid : option string) : Result Reprojection :=
  roi <- match roi with
         | RoiWkt s => loads E s
         | RoiPolygon p => Ok p
         end ;;
  let roi_bounds := bounds roi in
  let roi_center := centroid roi in
  roi_srs <- _get_reference_system roi_grid ;;
  destination_srs <- _get_reference_system destination_grid ;;
  srs <- match roi_srs, destination_srs with
         | None, None =>
             d <- _get_projected_srs roi_center ;; Ok (wgs84_srs, d)
         | None, Some d => Ok (d, d)
         | Some r, None =>
             if IsSame E r wgs84_srs then
               d <- _get_projected_srs roi_center ;; Ok (r, d)
             else
               msg <- format
                 "Cannot derive destination grid for roi grid {}. Please specify destination grid"
                 [str_of_optional roi_grid] ;;
               Raise (ValueError msg)
         | Some r, Some d => Ok (r, d)
         end ;;
  Ok (mkReprojection roi_bounds spatial_resolution spatial_resolution
        (snd srs) (fst srs)).

End WithCollaborators.

End Resolver.

(** ** The plug-in registry *)

Module Registry.

Local Open Scope list_scope.

Section WithProcessors.
Context {P : Type}.

(** [POST_PROCESSOR_CREATOR_REGISTRY], in registration order. *)
Definition RegistryState : Type := list (PostProcessorCreator P).

Definition add_post_processor_creator (registry : RegistryState)
    (post_processor_creator : PostProcessorCreator P) : RegistryState :=
  registry ++ [post_processor_creator].

(** [name in names] for a list of strings. *)
Definition str_in (name : string) (names : list string) : bool :=
  existsb (String.eqb name) names.

(** [d in ds] for a list of indicator descriptions. *)
Definition description_in (d : IndicatorDescription)
    (ds : list IndicatorDescription) : bool :=
  existsb (fun e => IndicatorDescription_eqb e d) ds.

Definition requested_names_of (requested_indicator_names : list string)
    (post_processor_creator : PostProcessorCreator P) : list string :=
  fold_left
    (fun indicator_names indicator_description =>
       if str_in (short_name indicator_description) requested_indicator_names
       then indicator_names ++ [short_name indicator_description]
       else indicator_names)
    (get_indicator_descriptions post_processor_creator) [].

Definition get_post_processors (registry : RegistryState)
    (requested_indicator_names : list string) : list P :=
  fold_left
    (fun post_processors post_processor_creator =>
       let indicator_names :=
         requested_names_of requested_indicator_names post_processor_creator in
       if (0 <? List.length indicator_names)%nat
       then post_processors
              ++ [create_post_processor post_processor_creator indicator_names]
       else post_processors)
    registry [].

Definition get_post_processor_names (registry : RegistryState) : list string :=
  fold_left
    (fun post_processor_names post_processor_creator =>
       post_processor_names ++ [get_name post_processor_creator])
    registry [].

Definition no_post_processor (name : string) : PyError :=
  ValueError ("No post processor with name " ++ name ++ " found.")%string.

Fixpoint get_post_processor_description (registry : RegistryState)
    (name : string) : Result string :=
  match registry with
  | [] => Raise (no_post_processor name)
  | post_processor_creator :: rest =>
      if String.eqb name (get_name post_processor_creator)
      then Ok (get_description post_processor_creator)
      else get_post_processor_description rest name
  end.

Fixpoint get_post_processor (registry : RegistryState) (name : string)
    (indicator_names : list string) : Result P :=
  match registry with
  | [] => Raise (no_post_processor name)
  | post_processor_creator :: rest =>
      if String.eqb name (get_name post_processor_creator)
      then Ok (create_post_processor post_processor_creator indicator_names)
      else get_post_processor rest name indicator_names
  end.

Definition get_available_indicators (registry : RegistryState)
  : list IndicatorDescription :=
  fold_left
    (fun indicator_descriptions post_processor_creator =>
       fold_left
         (fun indicator_descriptions indicator_description =>
            if negb (description_in indicator_description indicator_descriptions)
            then indicator_descriptions ++ [indicator_description]
            else indicator_descriptions)
         (get_indicator_descriptions post_processor_creator)
         indicator_descriptions)
    registry [].

End WithProcessors.

End Registry.

(** ** Runs and their traces *)

(** What a run does to the world outside, one event per call. *)
Inductive Event : Type :=
| Progress (percent : Z)
    (** [component_progress_logger.info], with the integer it prints *)
| Info (msg : string)
    (** [logging.getLogger().info] *)
| Warning (msg : string)
    (** [logging.warning] *)
| ProcessObservations (processor : string) (start_ end_ : datetime)
    (** [post_processor.process_observations] on the window of two dates *)
| ProcessVariables (processor : string) (date : string) (variable_names : list string)
    (** [post_processor.process_variables] on the variables found for a date *)
| GeoTiffWrite (file_names : list string) (grid : Grid) (projection : string)
    (indicators : list Array).
    (** [GeoTiffWriter(...)], [write] and [close] *)

(** A computation that leaves a trace and returns or raises; what was
    done before an exception stays done. *)
Definition Run (A : Type) : Type := (list Event * Result A)%type.

Definition ret {A : Type} (a : A) : Run A := ([], Ok a).

Definition bind {A B : Type} (m : Run A) (k : A -> Run B) : Run B :=
  match m with
  | (t, Ok a) => let (t', r) := k a in ((t ++ t')%list, r)
  | (t, Raise e) => (t, Raise e)
  end.

Definition emit (e : Event) : Run unit := ([e], Ok tt).

Definition lift {A : Type} (r : Result A) : Run A := ([], r).

Declare Scope run_scope.
Delimit Scope run_scope with run.
Notation "x <- c ;; k" := (bind c (fun x => k))
  (at level 61, c at next level, right associativity) : run_scope.
Notation "c ;; k" := (bind c (fun _ => k))
  (at level 61, right associativity) : run_scope.

(** [for a in l: body(a)] *)
Fixpoint for_each {A : Type} (l : list A) (body : A -> Run unit) : Run unit :=
  match l with
  | [] => ret tt
  | a :: rest => bind (body a) (fun _ => for_each rest body)
  end.

(** A list built by appending [f a] for each [a], where [f] may raise. *)
Fixpoint collect {A B : Type} (f : A -> Result B) (l : list A) : Result (list B) :=
  match l with
  | [] => Ok []
  | a :: rest => (b <- f a ;; bs <- collect f rest ;; Ok (b :: bs))%result
  end.

(** [range(n)] and [enumerate(l)]. *)
Definition range (n : Z) : list Z := map Z.of_nat (seq 0 (Z.to_nat n)).

Definition enumerate {A : Type} (l : list A) : list (Z * A) :=
  combine (range (Z.of_nat (List.length l))) l.

(** Dictionaries with string keys. *)
Fixpoint dict_get {V : Type} (k : string) (d : list (string * V)) : option V :=
  match d with
  | [] => None
  | (k', v) :: rest => if String.eqb k' k then Some v else dict_get k rest
  end.

Fixpoint dict_set {V : Type} (k : string) (v : V) (d : list (string * V))
  : list (string * V) :=
  match d with
  | [] => [(k, v)]
  | (k', v') :: rest =>
      if String.eqb k' k then (k', v) :: rest else (k', v') :: dict_set k v rest
  end.

(** The files written by a trace, in order. *)
Definition files_written (t : list Event) : list string :=
  flat_map (fun e => match e with
                     | GeoTiffWrite file_names _ _ _ => file_names
                     | _ => []
                     end) t.

(** The values sent to the progress channel by a trace, in order. *)
Definition progress_values (t : list Event) : list Z :=
  flat_map (fun e => match e with
                     | Progress v => [v]
                     | _ => []
                     end) t.

(** An argument of a call that has a default value. *)
Inductive Argument (A : Type) : Type :=
| Omitted
| Passed (a : A).
Arguments Omitted {A}.
Arguments Passed {A} a.

Definition or_default {A : Type} (default : A) (a : Argument A) : A :=
  match a with
  | Omitted => default
  | Passed v => v
  end.

Module Pipeline.

Import Resolver Registry.
Local Open Scope run_scope.

Definition SINGLE_NAME_FORMAT : string := "{}_{}.tif".
Definition DOUBLE_NAME_FORMAT : string := "{}_{}_{}.tif".

(** [time.strftime('%Y%m%d')], for the years from 1000 on, which every
    platform prints with four digits. *)
Definition strftime_Ymd (time : datetime) : string :=
  (zero_padded 4 (year time) ++ zero_padded 2 (month time)
   ++ zero_padded 2 (day time))%string.

(** [int((i / total) * 100)] *)
Definition percentage (i total : Z) : Result Z :=
  (ratio <- truediv i total ;;
   int_of_float (ratio * float_of_Z 100)%float)%result.

Definition _group_file_refs_by_date (file_refs : list FileRef)
  : list (string * list FileRef) :=
  fold_left
    (fun file_ref_groups file_ref =>
       let file_ref_groups :=
         match dict_get (start_time file_ref) file_ref_groups with
         | None => dict_set (start_time file_ref) [] file_ref_groups
         | Some _ => file_ref_groups
         end in
       match dict_get (start_time file_ref) file_ref_groups with
       | Some group =>
           dict_set (start_time file_ref) (group ++ [file_ref])%list file_ref_groups
       | None => file_ref_groups
       end)
    file_refs [].

Section WithCollaborators.
Context (E : Collaborators).

Definition _format (time : Time) : Result string :=
  (time <- match time with
           | TimeStr s => get_time_from_string E s
           | TimeDatetime d => Ok d
           end ;;
   Ok (strftime_Ymd time))%result.

Definition is_GeoTiff (output_format : option string) : bool :=
  match output_format with
  | Some f => String.eqb f "GeoTiff"
  | None => false
  end.

Definition _write (indicators : list Array) (file_names : list string)
    (roi : Roi) (spatial_resolution : Z) (roi_grid destination_grid : option string)
    (output_format : option string) : Run unit :=
  reprojection <- lift (_get_reprojection E spatial_resolution roi roi_grid
                          destination_grid) ;;
  if is_GeoTiff output_format then
    let reprojected_data_set := reproject_dummy E reprojection in
    let srs := destination_srs reprojection in
    let projection := ExportToWkt E srs in
    emit (GeoTiffWrite file_names reprojected_data_set projection indicators)
  else
    msg <- lift (format
                   "Writing of {} not supported. Can not write post-processing results."
                   [str_of_optional output_format]) ;;
    emit (Warning msg).

(** The file name of an indicator over a window of two dates. *)
Definition double_file_name (output_path indicator_name : string)
    (start_ end_ : Time) : Result string :=
  (s <- _format start_ ;;
   e <- _format end_ ;;
   name <- format DOUBLE_NAME_FORMAT [indicator_name; s; e] ;;
   Ok (path_join output_path name))%result.

(** The file name of an indicator for one date. *)
Definition single_file_name (output_path indicator_name : string)
    (date : Time) : Result string :=
  (d <- _format date ;;
   name <- format SINGLE_NAME_FORMAT [indicator_name; d] ;;
   Ok (path_join output_path name))%result.

(** The body of the loop over the windows of an observation run, after
    its progress line: the window from date [i] to date [i + 1] is
    processed and its indicators are written. *)
Definition eo_data_window (post_processor : PostProcessor E)
    (observations : Observations E) (output_path : string) (roi : Roi)
    (spatial_resolution : Z) (roi_grid destination_grid output_format : option string)
    (i : Z) : Run unit :=
  start_ <- lift (index (dates E observations) (Z.to_nat i)) ;;
  end_ <- lift (index (dates E observations) (Z.to_nat (i + 1))) ;;
  let observations_subset := get_observations_subset E observations start_ end_ in
  emit (ProcessObservations (get_pp_name post_processor) start_ end_) ;;
  let indicator_dict := process_observations post_processor observations_subset in
  let results := map snd indicator_dict in
  file_names <- lift (collect
                        (fun kv => double_file_name output_path (fst kv)
                                     (TimeDatetime start_) (TimeDatetime end_))
                        indicator_dict) ;;
  _write results file_names roi spatial_resolution roi_grid destination_grid
    output_format.

(** One turn of that loop. *)
Definition eo_data_step (post_processor : PostProcessor E)
    (observations : Observations E) (output_path : string) (roi : Roi)
    (spatial_resolution : Z) (roi_grid destination_grid output_format : option string)
    (i : Z) : Run unit :=
  percent <- lift (percentage i (get_num_observations E observations - 1)) ;;
  emit (Progress percent) ;;
  eo_data_window post_processor observations output_path roi spatial_resolution
    roi_grid destination_grid output_format i.

Definition _run_eo_data_post_processor (post_processor : PostProcessor E)
    (data_path output_path : string) (roi : Roi) (spatial_resolution : Z)
    (roi_grid destination_grid output_format : option string) : Run unit :=
  let supported_eo_data_types := get_names_of_supported_eo_data_types post_processor in
  let file_refs := get_valid_files E data_path supported_eo_data_types in
  reprojection <- lift (_get_reprojection E spatial_resolution roi roi_grid
                          destination_grid) ;;
  let observations := create_observations E file_refs reprojection in
  if get_num_observations E observations <? 2 then
    emit (Info ("Not enough observations found. Can not conduct post processing for "
                ++ get_pp_name post_processor)%string)
  else
    for_each (range (get_num_observations E observations - 1))
      (eo_data_step post_processor observations output_path roi spatial_resolution
         roi_grid destination_grid output_format).

(** The file chosen for each variable name among the files of a date:
    the first one that is valid for it. *)
Definition data_files_of (variable_names : list string)
    (file_refs_for_date : list FileRef) : list (string * string) :=
  fold_left
    (fun data_files variable_name =>
       match find (fun file_ref => is_valid E (url file_ref) variable_name)
               file_refs_for_date with
       | Some file_ref => dict_set variable_name (url file_ref) data_files
       | None => data_files
       end)
    variable_names [].

(** The body of the loop over the date groups of a variable run, after
    its progress line: the variables of the date are read and processed
    and the indicators are written. *)
Definition variable_group (post_processor : PostProcessor E)
    (reprojection : Reprojection) (output_path : string)
    (variable_names : list string) (roi : Roi) (spatial_resolution : Z)
    (roi_grid destination_grid output_format : option string)
    (group : string * list FileRef) : Run unit :=
  let date := fst group in
  let file_refs_for_date := snd group in
  let data_files := data_files_of variable_names file_refs_for_date in
  let variable_data :=
    map (fun kv => (fst kv, read_reprojected E reprojection (snd kv))) data_files in
  emit (ProcessVariables (get_pp_name post_processor) date (map fst variable_data)) ;;
  let indicator_dict := process_variables post_processor variable_data in
  let results := map snd indicator_dict in
  file_names <- lift (collect
                        (fun kv => single_file_name output_path (fst kv) (TimeStr date))
                        indicator_dict) ;;
  _write results file_names roi spatial_resolution roi_grid destination_grid
    output_format.

(** One turn of that loop. *)
Definition variable_step (post_processor : PostProcessor E)
    (reprojection : Reprojection) (total : Z) (output_path : string)
    (variable_names : list string) (roi : Roi) (spatial_resolution : Z)
    (roi_grid destination_grid output_format : option string)
    (turn : Z * (string * list FileRef)) : Run unit :=
  percent <- lift (percentage (fst turn) total) ;;
  emit (Progress percent) ;;
  variable_group post_processor reprojection output_path variable_names roi
    spatial_resolution roi_grid destination_grid output_format (snd turn).

Definition _run_variable_post_processor (post_processor : PostProcessor E)
    (data_path output_path : string) (variable_names : list string) (roi : Roi)
    (spatial_resolution : Z) (roi_grid destination_grid output_format : option string)
  : Run unit :=
  let file_refs := get_valid_files E data_path variable_names in
  let file_ref_groups := _group_file_refs_by_date file_refs in
  reprojection <- lift (_get_reprojection E spatial_resolution roi roi_grid
                          destination_grid) ;;
  for_each (enumerate file_ref_groups)
    (variable_step post_processor reprojection
       (Z.of_nat (List.length file_ref_groups)) output_path variable_names roi
       spatial_resolution roi_grid destination_grid output_format).

Definition run_actual_post_processor (post_processor : PostProcessor E)
    (data_path output_path : string) (roi : Roi) (spatial_resolution : Z)
    (variable_names : option (list string))
    (roi_grid destination_grid output_format : option string) : Run unit :=
  match get_type post_processor with
  | EO_DATA_POST_PROCESSOR =>
      _run_eo_data_post_processor post_processor data_path output_path roi
        spatial_resolution roi_grid destination_grid output_format
  | VARIABLE_POST_PROCESSOR =>
      match variable_names with
      | None => lift (Raise (ValueError "No list with variable names be provided."))
      | Some variable_names =>
          _run_variable_post_processor post_processor data_path output_path
            variable_names roi spatial_resolution roi_grid destination_grid
            output_format
      end
  end.

(** The defaults of the two entry points. *)
Definition default_roi_grid : option string := Some "EPSG:4326".
Definition default_output_format : option string := Some "GeoTiff".

Definition run_post_processing (registry : list (PostProcessorCreator (PostProcessor E)))
    (indicator_names : list string) (data_path output_path : string) (roi : Roi)
    (spatial_resolution : Z) (variable_names : Argument (option (list string)))
    (roi_grid destination_grid output_format : Argument (option string)) : Run unit :=
  let variable_names := or_default None variable_names in
  let roi_grid := or_default default_roi_grid roi_grid in
  let destination_grid := or_default None destination_grid in
  let output_format := or_default default_output_format output_format in
  let post_processors := get_post_processors registry indicator_names in
  for_each post_processors
    (fun post_processor =>
       run_actual_post_processor post_processor data_path output_path roi
         spatial_resolution variable_names roi_grid destination_grid output_format).

Definition run_post_processor (registry : list (PostProcessorCreator (PostProcessor E)))
    (name data_path output_path : string) (roi : Roi) (spatial_resolution : Z)
    (indicator_names : Argument (list string))
    (variable_names : Argument (option (list string)))
    (roi_grid destination_grid output_format : Argument (option string)) : Run unit :=
  let indicator_names := or_default [] indicator_names in
  let variable_names := or_default None variable_names in
  let roi_grid := or_default default_roi_grid roi_grid in
  let destination_grid := or_default None destination_grid in
  let output_format := or_default default_output_format output_format in
  post_processor <- lift (get_post_processor registry name indicator_names) ;;
  run_actual_post_processor post_processor data_path output_path roi
    spatial_resolution variable_names roi_grid destination_grid output_format.

End WithCollaborators.

End Pipeline.

(** ** A concrete set of collaborators

    A small world to run the module in: references are the same when
    they were built the same way, times are written [YYYY-MM-DD], a file
    is valid for a name when its URL starts with it, and an observation
    set is the list of its dates. *)

Module Demo.

Definition SpatialReference_eqb (a b : SpatialReference) : bool :=
  match a, b with
  | ImportFromEPSG m, ImportFromEPSG n => m =? n
  | ImportFromWkt s, ImportFromWkt t => String.eqb s t
  | SetUTM z h, SetUTM z' h' => (z =? z') && (h =? h')
  | _, _ => false
  end.

Definition parse_date (s : string) : Result datetime :=
  (y <- int (substring 0 4 s) ;;
   m <- int (substring 5 2 s) ;;
   d <- int (substring 8 2 s) ;;
   Ok (mkDatetime (Z.to_nat y) (Z.to_nat m) (Z.to_nat d) 0 0 0))%result.

Fixpoint dates_of (file_refs : list FileRef) : list datetime :=
  match file_refs with
  | [] => []
  | f :: rest =>
      match parse_date (start_time f) with
      | Ok d => d :: dates_of rest
      | Raise _ => dates_of rest
      end
  end.

Definition collaborators : Collaborators := {|
  loads := fun _ => Raise (ValueError "not a polygon");
  IsSame := SpatialReference_eqb;
  get_time_from_string := parse_date;
  get_valid_files := fun data_path names =>
    if String.eqb data_path "one" then
      [mkFileRef "S2_a" "2020-01-01" "2020-01-01"]
    else
      [mkFileRef "S2_a" "2020-01-01" "2020-01-01";
       mkFileRef "S2_b" "2020-01-16" "2020-01-16"];
  is_valid := fun u name => prefix name u;
  Observations := list datetime;
  create_observations := fun file_refs _ => dates_of file_refs;
  get_num_observations := fun o => Z.of_nat (List.length o);
  dates := fun o => o;
  get_observations_subset := fun _ s e => [s; e];
  read_reprojected := fun _ _ => [[1.0%float]];
  reproject_dummy := fun _ => mkGrid 1 1 [];
  ExportToWkt := fun _ => "PROJCS"
|}.

(** A one-degree square around 9 E, 48 N. *)
Definition square : Polygon :=
  mkPolygon (8.5, 47.5, 9.5, 48.5)%float (mkPoint 9.0 48.0).


Definition burn_severity : PostProcessor collaborators := {|
  get_pp_name := "BurnSeverity";
  get_type := EO_DATA_POST_PROCESSOR;
  get_names_of_supported_eo_data_types := ["S2"];
  process_observations := fun _ => [("BurnSeverity", [[0.5%float]])];
  process_variables := fun _ => []
|}.

Definition sma : PostProcessor collaborators := {|
  get_pp_name := "SMA";
  get_type := VARIABLE_POST_PROCESSOR;
  get_names_of_supported_eo_data_types := [];
  process_observations := fun _ => [];
  process_variables := fun _ => [("SMA", [[0.25%float]])]
|}.

Definition nbr : IndicatorDescription :=
  mkIndicatorDescription "NBR" "Normalized Burn Ratio".

Definition creator_a : PostProcessorCreator (PostProcessor collaborators) := {|
  get_name := "BurnSeverity";
  get_description := "Burn severity from two observations";
  get_indicator_descriptions :=
    [nbr; mkIndicatorDescription "BurnSeverity" "Severity of a burn"];
  create_post_processor := fun _ => burn_severity
|}.

Definition creator_b : PostProcessorCreator (PostProcessor collaborators) := {|
  get_name := "SMA";
  get_description := "Soil moisture anomaly";
  get_indicator_descriptions :=
    [nbr; mkIndicatorDescription "SMA" "Soil moisture anomaly"];
  create_post_processor := fun _ => sma
|}.

End Demo.

(** ** The registry as the specification words it *)

Module RegistrySpec.

Import Registry.

Section WithProcessors.
Context {P : Type}.

(** The indicator short names a factory declares. *)
Definition declared_names (c : PostProcessorCreator P) : list string :=
  map short_name (get_indicator_descriptions c).

(** The declared names that are requested, in the order of declaration. *)
Definition intersection (requested_names : list string)
    (c : PostProcessorCreator P) : list string :=
  filter (fun name => str_in name requested_names) (declared_names c).

Definition intersects (requested_names : list string)
    (c : PostProcessorCreator P) : bool :=
  match intersection requested_names c with
  | [] => false
  | _ :: _ => true
  end.

(** One processor for each factory whose intersection is not empty,
    bound to that intersection, in registration order. *)
Definition resolve_by_indicators (registry : list (PostProcessorCreator P))
    (requested_names : list string) : list P :=
  map (fun c => create_post_processor c (intersection requested_names c))
    (filter (intersects requested_names) registry).

(** Every description some factory declares. *)
Definition declared_by (registry : list (PostProcessorCreator P))
    (d : IndicatorDescription) : Prop :=
  exists c, In c registry /\ In d (get_indicator_descriptions c).

End WithProcessors.

End RegistrySpec.

(** ** What a run is expected to leave in its trace *)

Module PipelineSpec.

Import Pipeline.

Definition unsupported_format_warning (output_format : option string) : Event :=
  Warning ("Writing of " ++ str_of_optional output_format
           ++ " not supported. Can not write post-processing results.").


Definition missing_variable_names : PyError :=
  ValueError "No list with variable names be provided.".

(** The one event of a write whose reprojection resolved. *)
Definition write_event (E : Collaborators) (reprojection : Reprojection)
    (output_format : option string) (indicators : list Array)
    (file_names : list string) : Event :=
  if is_GeoTiff output_format then
    GeoTiffWrite file_names (reproject_dummy E reprojection)
      (ExportToWkt E (destination_srs reprojection)) indicators
  else unsupported_format_warning output_format.

(** A trace, turn by turn: the progress value of each turn, then what
    the body of the turn left. *)
Definition turns {A : Type} (body : A -> Run unit) (progress : list (A * Z))
  : list Event :=
  flat_map (fun turn => Progress (snd turn) :: fst (body (fst turn))) progress.

(** Non-decreasing lists of integers, decided. *)
Fixpoint non_decreasing (l : list Z) : bool :=
  match l with
  | a :: (b :: _) as rest => (a <=? b) && non_decreasing rest
  | _ => true
  end.

(** The exact percentage of [i] in [total], rounded down. *)
Definition exact_percentage (i total : Z) : Z := 100 * i / total.

End PipelineSpec.

(** ** Decided properties *)

Module Decide.

Import Resolver Registry Pipeline PipelineSpec.

(** Strings of decimal digits. *)
Fixpoint all_digits (s : string) : bool :=
  match s with
  | EmptyString => true
  | String c r =>
      match digit_value c with
      | Some _ => all_digits r
      | None => false
      end
  end.

(** The zone at every whole degree of longitude, compared with the
    formula. *)
Definition whole_degrees : list Z :=
  map (fun n => Z.of_nat n - 180) (seq 0 361).

Definition zone_is_floor (k : Z) : bool :=
  match utm_zone_of (float_of_Z k) with
  | Ok z => z =? (k + 180) / 6 + 1
  | Raise _ => false
  end.

(** The step of the loop of [get_available_indicators]. *)
Definition add_new (ds : list IndicatorDescription) (d : IndicatorDescription)
  : list IndicatorDescription :=
  if negb (description_in d ds) then (ds ++ [d])%list else ds.

(** A run leaves the progress channel alone. *)
Definition quiet {A : Type} (r : Run A) : Prop := progress_values (fst r) = [].

(** The progress values of a loop of [total] turns, checked: they are
    all computed, do not decrease, and each is within one below the
    exact percentage rounded down. *)
Definition near_exact (total : Z) (turn : Z * Z) : bool :=
  (snd turn * total <=? 100 * fst turn)
  && (100 * fst turn <? (snd turn + 2) * total).

Definition progress_checked (total : Z) : bool :=
  match collect (fun i => percentage i total) (range total) with
  | Ok vs => non_decreasing vs && forallb (near_exact total) (combine (range total) vs)
  | Raise _ => false
  end.

Definition checked_totals : list Z := map Z.of_nat (seq 1 366).

End Decide.

(** ** The command line *)

Module Cli.

Import Registry Pipeline.
Local Open Scope run_scope.

(** The [Namespace] that [parser.parse_args()] returns for a command
    line that gives [--roi] and [--spatial_resolution] besides the three
    required options; an option that is not given is [None]. *)
Record Namespace : Type := mkNamespace {
  args_name : string;
  args_input_path : string;
  args_output_path : string;
  args_format : option string;
  args_roi : string;
  args_spatial_resolution : string;
  args_roi_grid : option string;
  args_destination_grid : option string
}.

(** The body of [if __name__ == '__main__':] after [parse_args]. *)
Definition main (E : Collaborators)
    (registry : list (PostProcessorCreator (PostProcessor E)))
    (args : Namespace) : Run unit :=
  let output_format :=
    match args_format args with
    | None => "GeoTiff"
    | Some f => f
    end in
  spatial_resolution <- lift (int (args_spatial_resolution args)) ;;
  run_post_processor E registry (args_name args) (args_input_path args)
    (args_output_path args) (RoiWkt (args_roi args)) spatial_resolution
    Omitted Omitted (Passed (args_roi_grid args))
    (Passed (args_destination_grid args)) (Passed (Some output_format)).

End Cli.

(** ** Groups, windows and geometry, as one would describe them *)

Module RunSpec.

Import Registry Pipeline PipelineSpec.

(** The distinct keys of a list, each at its first occurrence. *)
Fixpoint first_seen (keys : list string) : list string :=
  match keys with
  | [] => []
  | k :: rest => k :: filter (fun k' => negb (String.eqb k' k)) (first_seen rest)
  end.

(** One turn of the loop of [_group_file_refs_by_date], in one step: the
    file joins the group of its start time, which is opened at the end
    when it is not there. *)
Definition turn (groups : list (string * list FileRef)) (file_ref : FileRef)
  : list (string * list FileRef) :=
  match dict_get (start_time file_ref) groups with
  | Some group => dict_set (start_time file_ref) (group ++ [file_ref])%list groups
  | None => (groups ++ [(start_time file_ref, [file_ref])])%list
  end.

(** The files of a list that start at [key], in the order of the list. *)
Definition starting_at (key : string) (file_refs : list FileRef) : list FileRef :=
  filter (fun file_ref => String.eqb (start_time file_ref) key) file_refs.

(** The first file of a date that is valid for a variable. *)
Definition first_valid (E : Collaborators) (variable_name : string)
    (file_refs : list FileRef) : option FileRef :=
  find (fun file_ref => is_valid E (url file_ref) variable_name) file_refs.

(** An event that writes rasters writes them on [grid] in
    [projection]. *)
Definition written_on (grid : Grid) (projection : string) (e : Event) : Prop :=
  match e with
  | GeoTiffWrite _ g p _ => g = grid /\ p = projection
  | _ => True
  end.

(** The file names of the window from date [i] to date [i + 1]: one for
    each indicator the processor returns for the window. *)
Definition window_file_names (E : Collaborators) (post_processor : PostProcessor E)
    (observations : Observations E) (output_path : string) (i : Z) : list string :=
  match nth_error (dates E observations) (Z.to_nat i),
        nth_error (dates E observations) (Z.to_nat (i + 1)) with
  | Some start_, Some end_ =>
      map (fun kv => path_join output_path
                       (fst kv ++ "_" ++ strftime_Ymd start_ ++ "_"
                        ++ strftime_Ymd end_ ++ ".tif"))
        (process_observations post_processor
           (get_observations_subset E observations start_ end_))
  | _, _ => []
  end.

(** The file names of a date group: one for each indicator the processor
    returns for the variables read for the date. *)
Definition group_file_names (E : Collaborators) (post_processor : PostProcessor E)
    (reprojection : Reprojection) (output_path : string)
    (variable_names : list string) (group : string * list FileRef) : list string :=
  match get_time_from_string E (fst group) with
  | Ok date =>
      map (fun kv => path_join output_path
                       (fst kv ++ "_" ++ strftime_Ymd date ++ ".tif"))
        (process_variables post_processor
           (map (fun kv => (fst kv, read_reprojected E reprojection (snd kv)))
              (data_files_of E variable_names (snd group))))
  | Raise _ => []
  end.

(** The same calendar day. *)
Definition same_day (a b : datetime) : Prop :=
  year a = year b /\ month a = month b /\ day a = day b.

(** The first progress value of a loop of [total] turns is 0. *)
Definition starts_at_zero (total : Z) : bool :=
  match percentage 0 total with
  | Ok v => v =? 0
  | Raise _ => false
  end.

End RunSpec.

(** * Properties *)

(** ** Results and traces *)

Lemma rbind_Ok {A B : Type} (r : Result A) (k : A -> Result B) (b : B) :
  rbind r k = Ok b -> exists a, r = Ok a /\ k a = Ok b.
Proof.
  destruct r as [a|e]; simpl; intro H; [exists a; auto | discriminate].
Qed.

Lemma bind_lift_Ok {A B : Type} (a : A) (k : A -> Run B) :
  bind (lift (Ok a)) k = k a.
Proof.
  unfold bind, lift. destruct (k a) as [t r]. reflexivity.
Qed.

Lemma bind_emit {B : Type} (e : Event) (k : unit -> Run B) :
  bind (emit e) k = (e :: fst (k tt), snd (k tt)).
Proof.
  unfold bind, emit. destruct (k tt) as [t r]. reflexivity.
Qed.

(** ** Decimal digits *)

Module PyFacts.

Import Py Decide.

Lemma append_assoc (a b c : string) : ((a ++ b) ++ c)%string = (a ++ (b ++ c))%string.
Proof.
  induction a as [|ch a IH]; simpl; [reflexivity|]. now rewrite IH.
Qed.

Lemma append_nil_r (a : string) : (a ++ "")%string = a.
Proof.
  induction a as [|ch a IH]; simpl; [reflexivity|]. now rewrite IH.
Qed.

Lemma length_append (a b : string) :
  String.length (a ++ b) = (String.length a + String.length b)%nat.
Proof.
  induction a as [|ch a IH]; simpl; [reflexivity|]. now rewrite IH.
Qed.

Lemma length_zero_padded (w n : nat) : String.length (zero_padded w n) = w.
Proof.
  revert n. induction w as [|w IH]; intro n; cbn [zero_padded]; [reflexivity|].
  rewrite length_append, IH. cbn [String.length]. lia.
Qed.

Lemma digit_value_digit_char (d : nat) :
  (d < 10)%nat -> digit_value (digit_char d) = Some (Z.of_nat d).
Proof.
  intro H. unfold digit_value, digit_char.
  rewrite nat_ascii_embedding by lia.
  replace ((48 <=? 48 + d)%nat && (48 + d <=? 57)%nat) with true.
  - f_equal. lia.
  - symmetry. apply andb_true_iff. split; apply Nat.leb_le; lia.
Qed.

Lemma digit_is_not_space (c : ascii) (d : Z) :
  digit_value c = Some d -> isspace c = false.
Proof.
  unfold digit_value, isspace.
  destruct ((48 <=? nat_of_ascii c)%nat && (nat_of_ascii c <=? 57)%nat) eqn:H;
    [|discriminate].
  intros _. apply andb_true_iff in H. destruct H as [H _].
  apply Nat.leb_le in H.
  apply orb_false_iff. split; apply andb_false_iff; right; apply Nat.leb_gt; lia.
Qed.

Lemma all_digits_append (a b : string) :
  all_digits (a ++ b) = all_digits a && all_digits b.
Proof.
  induction a as [|c a IH]; simpl; [reflexivity|].
  destruct (digit_value c); [exact IH|reflexivity].
Qed.

Lemma all_digits_zero_padded (w n : nat) : all_digits (zero_padded w n) = true.
Proof.
  revert n. induction w as [|w IH]; intro n; cbn [zero_padded]; [reflexivity|].
  rewrite all_digits_append, IH. cbn [all_digits andb].
  rewrite digit_value_digit_char; [reflexivity|].
  apply Nat.mod_upper_bound. discriminate.
Qed.

Lemma rstrip_all_digits (s : string) : all_digits s = true -> rstrip s = s.
Proof.
  induction s as [|c r IH]; simpl; [reflexivity|].
  destruct (digit_value c) as [d|] eqn:Hc; [|discriminate].
  intro Hr. rewrite (IH Hr).
  destruct r; [|reflexivity].
  now rewrite (digit_is_not_space _ _ Hc).
Qed.

Lemma lstrip_all_digits (s : string) : all_digits s = true -> lstrip s = s.
Proof.
  destruct s as [|c r]; simpl; [reflexivity|].
  destruct (digit_value c) as [d|] eqn:Hc; [|discriminate].
  intros _. now rewrite (digit_is_not_space _ _ Hc).
Qed.

Lemma strip_all_digits (s : string) : all_digits s = true -> strip s = s.
Proof.
  intro H. unfold strip. rewrite (lstrip_all_digits _ H). now apply rstrip_all_digits.
Qed.

(** [int] on a string of digits is what [digits] reads. *)
Lemma int_all_digits (s : string) (z : Z) :
  all_digits s = true -> digits s 0 false = Some z -> int s = Ok z.
Proof.
  intros Hs Hz. unfold int. rewrite (strip_all_digits _ Hs).
  destruct s as [|c r]; [discriminate|].
  simpl in Hs. destruct (digit_value c) as [d|] eqn:Hc; [|discriminate].
  assert (Hhead : match String c r with
                  | String "-" r' => option_map Z.opp (digits r' 0 false)
                  | String "+" r' => digits r' 0 false
                  | _ => digits (String c r) 0 false
                  end = digits (String c r) 0 false).
  { destruct c as [[] [] [] [] [] [] [] []]; try reflexivity; discriminate Hc. }
  rewrite Hhead, Hz. reflexivity.
Qed.

(** Reading a zero-padded number shifts what was read and adds it. *)
Lemma digits_zero_padded (w n : nat) (rest : string) (acc : Z) (b : bool) :
  digits (zero_padded (S w) n ++ rest) acc b
  = digits rest (10 ^ Z.of_nat (S w) * acc + Z.of_nat (n mod 10 ^ S w)) true.
Proof.
  revert n rest acc b. induction w as [|w IH]; intros n rest acc b.
  - change (zero_padded 1 n ++ rest)%string
      with (String (digit_char (n mod 10)) rest).
    cbn [digits].
    rewrite digit_value_digit_char by (apply Nat.mod_upper_bound; discriminate).
    f_equal.
  - change (zero_padded (S (S w)) n)
      with (zero_padded (S w) (n / 10) ++ String (digit_char (n mod 10)) "")%string.
    rewrite append_assoc.
    change (String (digit_char (n mod 10)) "" ++ rest)%string
      with (String (digit_char (n mod 10)) rest).
    rewrite IH. cbn [digits].
    rewrite digit_value_digit_char by (apply Nat.mod_upper_bound; discriminate).
    f_equal.
    replace (10 ^ S (S w))%nat with (10 * 10 ^ S w)%nat by reflexivity.
    rewrite Nat.Div0.mod_mul_r.
    rewrite (Nat2Z.inj_succ (S w)), Z.pow_succ_r by lia.
    rewrite Nat2Z.inj_add, Nat2Z.inj_mul. change (Z.of_nat 10) with 10. ring.
Qed.

End PyFacts.

(** ** The spatial-reference resolver *)

Module ResolverFacts.

Import Resolver Decide PyFacts.


(** A hint that is present never resolves to an absent reference. *)
Lemma reference_system_of_Some (wkt : string) (r : option SpatialReference) :
  _get_reference_system (Some wkt) = Ok r -> exists s, r = Some s.
Proof.
  unfold _get_reference_system.
  destruct (prefix "EPSG:" wkt).
  - intro H. apply rbind_Ok in H. destruct H as [code_text [_ H]].
    apply rbind_Ok in H. destruct H as [code [_ H]].
    inversion H. eauto.
  - intro H. inversion H. eauto.
Qed.

Lemma reference_system_absent (hint : option string) (r : option SpatialReference) :
  _get_reference_system hint = Ok r -> (hint = None <-> r = None).
Proof.
  destruct hint as [wkt|]; intro H.
  - apply reference_system_of_Some in H. destruct H as [s ->].
    split; discriminate.
  - inversion H. tauto.
Qed.

(** A hint that does not start with [EPSG:] is taken as WKT. *)
Lemma wkt_hint_resolves (wkt : string) :
  prefix "EPSG:" wkt = false ->
  _get_reference_system (Some wkt) = Ok (Some (ImportFromWkt wkt)).
Proof.
  intro H. unfold _get_reference_system. rewrite H. reflexivity.
Qed.

Lemma split_all_digits (d : string) :
  all_digits d = true -> split ":" d = [d].
Proof.
  induction d as [|c r IH]; simpl; [reflexivity|].
  destruct (digit_value c) as [v|] eqn:Hc; [|discriminate].
  intro Hr. destruct (Ascii.eqb c ":") eqn:Hcolon.
  - apply Ascii.eqb_eq in Hcolon. subst c. discriminate Hc.
  - now rewrite (IH Hr).
Qed.

Lemma digits_of_all_digits (d : string) (acc : Z) (b : bool) :
  all_digits d = true -> d <> EmptyString \/ b = true ->
  exists z, digits d acc b = Some z.
Proof.
  revert acc b. induction d as [|c r IH]; intros acc b Hd Hb.
  - destruct Hb as [Hb|Hb]; [congruence|]. subst b. simpl. eauto.
  - simpl in Hd. simpl. destruct (digit_value c) as [v|]; [|discriminate].
    apply IH; [exact Hd|now right].
Qed.

(** A hint made of [EPSG:] and decimal digits resolves to the reference
    of that code. *)
Lemma epsg_hint_resolves (d : string) (z : Z) :
  all_digits d = true -> digits d 0 false = Some z ->
  _get_reference_system (Some ("EPSG:" ++ d)) = Ok (Some (ImportFromEPSG z)).
Proof.
  intros Hd Hz. unfold _get_reference_system.
  replace (prefix "EPSG:" ("EPSG:" ++ d)) with true
    by (simpl; destruct d; reflexivity).
  change (split ":" ("EPSG:" ++ d)) with ("EPSG" :: split ":" d).
  rewrite (split_all_digits d Hd). cbn [index nth_error rbind].
  rewrite (int_all_digits d z Hd Hz). reflexivity.
Qed.

Lemma epsg_hint_always_resolves (d : string) :
  all_digits d = true -> d <> EmptyString ->
  exists z, _get_reference_system (Some ("EPSG:" ++ d))
            = Ok (Some (ImportFromEPSG z)).
Proof.
  intros Hd Hne.
  destruct (digits_of_all_digits d 0 false Hd (or_introl Hne)) as [z Hz].
  exists z. now apply epsg_hint_resolves.
Qed.

(** The reference the resolver compares with: [EPSG:4326]. *)
Lemma wgs84_hint_resolves :
  _get_reference_system (Some "EPSG:4326") = Ok (Some wgs84_srs).
Proof. reflexivity. Qed.

Lemma whole_degrees_checked : forallb zone_is_floor whole_degrees = true.
Proof. vm_cast_no_check (eq_refl true). Qed.

Lemma zone_at_whole_degree (k : Z) :
  -180 <= k <= 180 -> utm_zone_of (float_of_Z k) = Ok ((k + 180) / 6 + 1).
Proof.
  intro Hk.
  assert (Hin : In k whole_degrees).
  { unfold whole_degrees. apply in_map_iff.
    exists (Z.to_nat (k + 180)). split; [lia|].
    apply in_seq. lia. }
  pose proof (proj1 (forallb_forall _ _) whole_degrees_checked k Hin) as H.
  unfold zone_is_floor in H.
  destruct (utm_zone_of (float_of_Z k)) as [z|e]; [|discriminate].
  apply Z.eqb_eq in H. congruence.
Qed.

Lemma is_northern_flag (lat : float) :
  (is_northern_of lat = 1 <-> (0 <? lat)%float = true)
  /\ (is_northern_of lat = 0 <-> (0 <? lat)%float = false).
Proof.
  unfold is_northern_of. destruct (0 <? lat)%float; split; split;
    intro H; try reflexivity; discriminate.
Qed.

Lemma projected_srs_inv (c : Point) (u : SpatialReference) :
  _get_projected_srs c = Ok u ->
  exists z, utm_zone_of (x c) = Ok z /\ u = SetUTM z (is_northern_of (y c)).
Proof.
  unfold _get_projected_srs. intro H.
  apply rbind_Ok in H. destruct H as [z [Hz H]].
  inversion H. eauto.
Qed.

End ResolverFacts.

Section ResolverClaims.

Import Resolver ResolverFacts Pipeline.
Context (E : Collaborators).


End ResolverClaims.

Section ResolverTheorems.

Import Resolver ResolverFacts Pipeline.




(** C2 (as amended). The UTM zone of a centroid is [1 + (lon + 180) / 6]
    computed in doubles and truncated towards zero, which at every whole
    degree of longitude from -180 to 180 is [floor((lon + 180) / 6) + 1];
    the northern flag is 1 exactly when the latitude is greater than 0
    and 0 otherwise; at longitude 9.0 the zone is 32 and at longitude
    -123.0 it is 10. *)
Theorem utm_zone_and_hemisphere :
  (forall c u, _get_projected_srs c = Ok u <->
     exists z, utm_zone_of (x c) = Ok z /\ u = SetUTM z (is_northern_of (y c)))
  /\ (forall lon, utm_zone_of lon = int_of_float (1 + (lon + 180) / 6)%float)
  /\ (forall k, -180 <= k <= 180 ->
        utm_zone_of (float_of_Z k) = Ok ((k + 180) / 6 + 1))
  /\ (forall lat, is_northern_of lat = 1 <-> (0 <? lat)%float = true)
  /\ (forall lat, is_northern_of lat = 0 <-> (0 <? lat)%float = false)
  /\ utm_zone_of 9.0 = Ok 32
  /\ utm_zone_of (-123.0) = Ok 10.
Proof.
  split.
  { intros c u. split.
    - apply projected_srs_inv.
    - intros [z [Hz ->]]. unfold _get_projected_srs. rewrite Hz. reflexivity. }
  split; [reflexivity|].
  split; [exact zone_at_whole_degree|].
  split; [intro lat; apply is_northern_flag|].
  split; [intro lat; apply is_northern_flag|].
  split; vm_compute; reflexivity.
Qed.

Lemma utm_zone_and_hemisphere_witness :
  utm_zone_of (float_of_Z 9) = Ok ((9 + 180) / 6 + 1).
Proof.
  apply (proj1 (proj2 (proj2 utm_zone_and_hemisphere)) 9). lia.
Defined.

(** C2, refuted as stated: the zone derived at longitude 9.0 is 32, not
    31, and the zone derived at longitude -123.0 is 10, not 2. *)
Lemma utm_zone_examples_differ :
  _get_projected_srs (mkPoint 9.0 48.0) = Ok (SetUTM 32 1)
  /\ _get_projected_srs (mkPoint (-123.0) 48.0) = Ok (SetUTM 10 1)
  /\ SetUTM 32 1 <> SetUTM 31 1
  /\ SetUTM 10 1 <> SetUTM 2 1.
Proof.
  split; [vm_compute; reflexivity|].
  split; [vm_compute; reflexivity|].
  split; discriminate.
Qed.



End ResolverTheorems.

(** ** The plug-in registry *)

Module RegistryFacts.

Import Registry RegistrySpec Decide.
Local Open Scope list_scope.

(** A loop that appends [f a] for the [a] that pass a test. *)
Lemma fold_left_append {A B : Type} (test : A -> bool) (f : A -> B)
    (l : list A) (init : list B) :
  fold_left (fun acc a => if test a then acc ++ [f a] else acc) l init
  = init ++ map f (filter test l).
Proof.
  revert init. induction l as [|a l IH]; intro init; simpl.
  - now rewrite app_nil_r.
  - rewrite IH. destruct (test a); simpl; [|reflexivity].
    now rewrite <- app_assoc.
Qed.

Lemma fold_left_pointwise {A B : Type} (f g : A -> B -> A) (l : list B) (a : A) :
  (forall a b, f a b = g a b) -> fold_left f l a = fold_left g l a.
Proof.
  intro H. revert a. induction l as [|b l IH]; intro a; simpl; [reflexivity|].
  rewrite H. apply IH.
Qed.

Lemma filter_map_swap {A B : Type} (test : B -> bool) (f : A -> B) (l : list A) :
  map f (filter (fun a => test (f a)) l) = filter test (map f l).
Proof.
  induction l as [|a l IH]; simpl; [reflexivity|].
  destruct (test (f a)); simpl; now rewrite IH.
Qed.

Lemma str_in_spec (name : string) (names : list string) :
  str_in name names = true <-> In name names.
Proof.
  unfold str_in. rewrite existsb_exists. split.
  - intros [n [Hin Heq]]. apply String.eqb_eq in Heq. now subst.
  - intro Hin. exists name. split; [assumption|apply String.eqb_refl].
Qed.

Lemma IndicatorDescription_eqb_spec (a b : IndicatorDescription) :
  IndicatorDescription_eqb a b = true <-> a = b.
Proof.
  unfold IndicatorDescription_eqb. rewrite andb_true_iff, !String.eqb_eq.
  destruct a as [n d], b as [n' d']; simpl. split.
  - intros [-> ->]. reflexivity.
  - intro H. inversion H. auto.
Qed.

Lemma description_in_spec (d : IndicatorDescription) (ds : list IndicatorDescription) :
  description_in d ds = true <-> In d ds.
Proof.
  unfold description_in. rewrite existsb_exists. split.
  - intros [e [Hin Heq]]. apply IndicatorDescription_eqb_spec in Heq. now subst.
  - intro Hin. exists d. split; [assumption|].
    now apply IndicatorDescription_eqb_spec.
Qed.

Section WithProcessors.
Context {P : Type}.

Lemma requested_names_of_intersection (requested : list string)
    (c : PostProcessorCreator P) :
  requested_names_of requested c = intersection requested c.
Proof.
  unfold requested_names_of, intersection, declared_names.
  rewrite (fold_left_append (fun d => str_in (short_name d) requested) short_name).
  simpl. apply (filter_map_swap (fun name => str_in name requested)).
Qed.

Lemma nonempty_intersects (requested : list string) (c : PostProcessorCreator P) :
  (0 <? List.length (requested_names_of requested c))%nat = intersects requested c.
Proof.
  rewrite requested_names_of_intersection. unfold intersects.
  destruct (intersection requested c); reflexivity.
Qed.

Lemma add_new_NoDup (l acc : list IndicatorDescription) :
  NoDup acc -> NoDup (fold_left add_new l acc).
Proof.
  revert acc. induction l as [|d l IH]; intros acc Hacc; simpl; [assumption|].
  apply IH. unfold add_new.
  destruct (description_in d acc) eqn:Hd; simpl; [assumption|].
  apply NoDup_app; [assumption|repeat constructor; intros []| ].
  intros e He [<-|[]].
  apply description_in_spec in He. congruence.
Qed.

Lemma add_new_In (l acc : list IndicatorDescription) (e : IndicatorDescription) :
  In e (fold_left add_new l acc) <-> In e acc \/ In e l.
Proof.
  revert acc. induction l as [|d l IH]; intro acc; simpl; [tauto|].
  rewrite IH. unfold add_new.
  destruct (description_in d acc) eqn:Hd; simpl.
  - apply description_in_spec in Hd. split; [tauto|].
    intros [H|[<-|H]]; tauto.
  - rewrite in_app_iff. simpl. tauto.
Qed.

Lemma available_indicators_flat (registry : list (PostProcessorCreator P))
    (acc : list IndicatorDescription) :
  fold_left
    (fun ds c => fold_left
                   (fun ds d => if negb (description_in d ds) then ds ++ [d] else ds)
                   (get_indicator_descriptions c) ds)
    registry acc
  = fold_left add_new (flat_map get_indicator_descriptions registry) acc.
Proof.
  revert acc. induction registry as [|c registry IH]; intro acc; simpl.
  - reflexivity.
  - rewrite fold_left_app. apply IH.
Qed.

End WithProcessors.

End RegistryFacts.

Section RegistryTheorems.

Import Registry RegistrySpec RegistryFacts Decide.
Local Open Scope list_scope.

(** C3. For every registry and every list of requested names, the
    processors resolved by indicators are, in registration order, one
    processor for each registered factory whose declared short names
    meet the request, created with exactly the declared names that are
    requested; a factory that declares none of them contributes
    nothing. *)
Theorem processors_follow_the_request {P : Type}
    (registry : list (PostProcessorCreator P)) (requested : list string) :
  get_post_processors registry requested = resolve_by_indicators registry requested
  /\ (forall (c : PostProcessorCreator P) name,
        In name (intersection requested c)
        <-> In name (declared_names c) /\ In name requested)
  /\ (forall c : PostProcessorCreator P,
        intersects requested c = true
        <-> exists name, In name (declared_names c) /\ In name requested)
  /\ List.length (get_post_processors registry requested)
     = List.length (filter (intersects requested) registry).
Proof.
  assert (Heq : get_post_processors registry requested
                = resolve_by_indicators registry requested).
  { unfold get_post_processors, resolve_by_indicators.
    rewrite (fold_left_pointwise _
               (fun acc c => if intersects requested c
                             then acc ++ [create_post_processor c
                                            (intersection requested c)]
                             else acc)).
    - exact (fold_left_append (intersects requested)
               (fun c => create_post_processor c (intersection requested c))
               registry []).
    - intros acc c. simpl. rewrite nonempty_intersects.
      now rewrite requested_names_of_intersection. }
  assert (Hin : forall (c : PostProcessorCreator P) name,
             In name (intersection requested c)
             <-> In name (declared_names c) /\ In name requested).
  { intros c name. unfold intersection. rewrite filter_In, str_in_spec. tauto. }
  split; [exact Heq|]. split; [exact Hin|]. split.
  - intro c. unfold intersects. split.
    + destruct (intersection requested c) as [|name rest] eqn:Hi; [discriminate|].
      intros _. exists name. apply Hin. rewrite Hi. now left.
    + intros [name Hname]. apply Hin in Hname.
      destruct (intersection requested c); [destruct Hname|reflexivity].
  - rewrite Heq. unfold resolve_by_indicators. apply length_map.
Qed.

(** C8. For every registry the list of available indicators holds no
    description twice, where two descriptions are the same when their
    name and their description are; it holds exactly the descriptions
    some factory declares; and two factories that each declare one
    indicator named ["NBR"] with the same description give one entry. *)
Theorem available_indicators_are_distinct {P : Type}
    (registry : list (PostProcessorCreator P)) :
  NoDup (get_available_indicators registry)
  /\ (forall d, In d (get_available_indicators registry) <-> declared_by registry d)
  /\ (forall a b,
        IndicatorDescription_eqb a b = true
        <-> short_name a = short_name b /\ description a = description b)
  /\ (forall (c1 c2 : PostProcessorCreator P) text,
        get_indicator_descriptions c1 = [mkIndicatorDescription "NBR" text] ->
        get_indicator_descriptions c2 = [mkIndicatorDescription "NBR" text] ->
        get_available_indicators [c1; c2] = [mkIndicatorDescription "NBR" text]).
Proof.
  unfold get_available_indicators.
  split; [|split; [|split]].
  - rewrite available_indicators_flat. apply add_new_NoDup. constructor.
  - intro d. rewrite available_indicators_flat, add_new_In, in_flat_map.
    unfold declared_by. simpl. tauto.
  - intros a b. unfold IndicatorDescription_eqb.
    now rewrite andb_true_iff, !String.eqb_eq.
  - intros c1 c2 text H1 H2. simpl. rewrite H1, H2. simpl.
    unfold IndicatorDescription_eqb. simpl.
    now rewrite !String.eqb_refl.
Qed.

Lemma available_indicators_are_distinct_witness :
  get_available_indicators
    [mkCreator nat "a" "first" [mkIndicatorDescription "NBR" "Normalized Burn Ratio"]
       (fun _ => 1%nat);
     mkCreator nat "b" "second" [mkIndicatorDescription "NBR" "Normalized Burn Ratio"]
       (fun _ => 2%nat)]
  = [mkIndicatorDescription "NBR" "Normalized Burn Ratio"].
Proof.
  exact (proj2 (proj2 (proj2 (available_indicators_are_distinct (P:=nat) [])))
           (mkCreator nat "a" "first"
              [mkIndicatorDescription "NBR" "Normalized Burn Ratio"] (fun _ => 1%nat))
           (mkCreator nat "b" "second"
              [mkIndicatorDescription "NBR" "Normalized Burn Ratio"] (fun _ => 2%nat))
           "Normalized Burn Ratio" eq_refl eq_refl).
Defined.

End RegistryTheorems.

(** ** Runs *)

Module PipelineFacts.

Import Resolver Registry Pipeline PipelineSpec.

Lemma collect_total {A B : Type} (f : A -> B) (l : list A) :
  collect (fun a => Ok (f a)) l = Ok (map f l).
Proof.
  induction l as [|a l IH]; simpl; [reflexivity|]. now rewrite IH.
Qed.

Lemma collect_pointwise {A B : Type} (f g : A -> Result B) (l : list A) :
  (forall a, f a = g a) -> collect f l = collect g l.
Proof.
  intro H. induction l as [|a l IH]; simpl; [reflexivity|]. now rewrite H, IH.
Qed.

Lemma is_GeoTiff_false (output_format : option string) :
  output_format <> Some "GeoTiff" -> is_GeoTiff output_format = false.
Proof.
  destruct output_format as [f|]; simpl; [|reflexivity].
  intro H. apply String.eqb_neq. congruence.
Qed.

Lemma progress_values_app (t u : list Event) :
  progress_values (t ++ u) = (progress_values t ++ progress_values u)%list.
Proof. apply flat_map_app. Qed.

Section WithCollaborators.
Context (E : Collaborators).

Lemma write_resolved (indicators : list Array) (file_names : list string)
    (roi : Roi) (res : Z) (roi_grid destination_grid output_format : option string)
    (rp : Reprojection) :
  _get_reprojection E res roi roi_grid destination_grid = Ok rp ->
  _write E indicators file_names roi res roi_grid destination_grid output_format
  = ([write_event E rp output_format indicators file_names], Ok tt).
Proof.
  intro H. unfold _write, write_event. rewrite H, bind_lift_Ok.
  destruct (is_GeoTiff output_format); reflexivity.
Qed.

Lemma write_unresolved (indicators : list Array) (file_names : list string)
    (roi : Roi) (res : Z) (roi_grid destination_grid output_format : option string)
    (e : PyError) :
  _get_reprojection E res roi roi_grid destination_grid = Raise e ->
  _write E indicators file_names roi res roi_grid destination_grid output_format
  = ([], Raise e).
Proof.
  intro H. unfold _write. rewrite H. reflexivity.
Qed.

Lemma write_no_progress (indicators : list Array) (file_names : list string)
    (roi : Roi) (res : Z) (roi_grid destination_grid output_format : option string) :
  progress_values
    (fst (_write E indicators file_names roi res roi_grid destination_grid
            output_format)) = [].
Proof.
  destruct (_get_reprojection E res roi roi_grid destination_grid) as [rp|e] eqn:H.
  - rewrite (write_resolved _ _ _ _ _ _ _ _ H). unfold write_event.
    destruct (is_GeoTiff output_format); reflexivity.
  - rewrite (write_unresolved _ _ _ _ _ _ _ _ H). reflexivity.
Qed.

Lemma format_of_datetime (d : datetime) :
  _format E (TimeDatetime d) = Ok (strftime_Ymd d).
Proof. reflexivity. Qed.

Lemma single_file_name_of (output_path indicator_name : string) (date : Time)
    (s : string) :
  _format E date = Ok s ->
  single_file_name E output_path indicator_name date
  = Ok (path_join output_path (indicator_name ++ "_" ++ s ++ ".tif")).
Proof.
  intro H. unfold single_file_name. rewrite H. reflexivity.
Qed.

Lemma double_file_name_of (output_path indicator_name : string)
    (start_ end_ : Time) (s e : string) :
  _format E start_ = Ok s ->
  _format E end_ = Ok e ->
  double_file_name E output_path indicator_name start_ end_
  = Ok (path_join output_path (indicator_name ++ "_" ++ s ++ "_" ++ e ++ ".tif")).
Proof.
  intros Hs He. unfold double_file_name. rewrite Hs, He. reflexivity.
Qed.

End WithCollaborators.

End PipelineFacts.

Section RunTheorems.

Import Resolver Registry Pipeline PipelineSpec PipelineFacts.



(** C5. A run dispatched to a variable processor without
    [variable_names] raises the missing-argument error before anything
    is done; with them it is the variable run. A run dispatched to an
    observation processor is the observation run whatever
    [variable_names] is, absent included. *)
Theorem variable_names_are_required_for_variables_only (E : Collaborators)
    (post_processor : PostProcessor E) (data_path output_path : string)
    (roi : Roi) (res : Z) (roi_grid destination_grid output_format : option string) :
  (get_type post_processor = VARIABLE_POST_PROCESSOR ->
   run_actual_post_processor E post_processor data_path output_path roi res None
     roi_grid destination_grid output_format
   = ([], Raise missing_variable_names))
  /\ (get_type post_processor = VARIABLE_POST_PROCESSOR ->
      forall variable_names,
        run_actual_post_processor E post_processor data_path output_path roi res
          (Some variable_names) roi_grid destination_grid output_format
        = _run_variable_post_processor E post_processor data_path output_path
            variable_names roi res roi_grid destination_grid output_format)
  /\ (get_type post_processor = EO_DATA_POST_PROCESSOR ->
      forall variable_names,
        run_actual_post_processor E post_processor data_path output_path roi res
          variable_names roi_grid destination_grid output_format
        = _run_eo_data_post_processor E post_processor data_path output_path roi
            res roi_grid destination_grid output_format)
  /\ (get_type post_processor = VARIABLE_POST_PROCESSOR ->
      forall registry name indicator_names rg dg fmt,
        get_post_processor registry name (or_default [] indicator_names)
        = Ok post_processor ->
        run_post_processor E registry name data_path output_path roi res
          indicator_names Omitted rg dg fmt
        = ([], Raise missing_variable_names)).
Proof.
  unfold run_actual_post_processor.
  split; [intro Ht; rewrite Ht; reflexivity|].
  split; [intros Ht names; rewrite Ht; reflexivity|].
  split; [intros Ht names; rewrite Ht; reflexivity|].
  intros Ht registry name indicator_names rg dg fmt Hpp.
  unfold run_post_processor. rewrite Hpp, bind_lift_Ok.
  unfold run_actual_post_processor. rewrite Ht. reflexivity.
Qed.

Lemma variable_names_are_required_for_variables_only_witness :
  run_actual_post_processor Demo.collaborators Demo.sma "two" "out"
    (RoiPolygon Demo.square) 10 None (Some "EPSG:4326") None (Some "GeoTiff")
  = ([], Raise (ValueError "No list with variable names be provided."))
  /\ snd (run_actual_post_processor Demo.collaborators Demo.burn_severity "two" "out"
            (RoiPolygon Demo.square) 10 None (Some "EPSG:4326") None (Some "GeoTiff"))
     = Ok tt.
Proof.
  split.
  - exact (proj1 (variable_names_are_required_for_variables_only
                    Demo.collaborators Demo.sma "two" "out" (RoiPolygon Demo.square)
                    10 (Some "EPSG:4326") None (Some "GeoTiff")) eq_refl).
  - rewrite (proj1 (proj2 (proj2 (variable_names_are_required_for_variables_only
                    Demo.collaborators Demo.burn_severity "two" "out"
                    (RoiPolygon Demo.square) 10 (Some "EPSG:4326") None
                    (Some "GeoTiff")))) eq_refl None).
    vm_compute. reflexivity.
Defined.

(** C6 (as amended). A call of the writer with a format other than
    ['GeoTiff'] writes no file; when the ROI and the grid hints resolve
    to a reprojection it raises no error and leaves only the
    unsupported-format warning; when they do not, it raises the
    resolver's error, as the reprojection is derived before the format
    is looked at. *)
Theorem unsupported_format_writes_nothing (E : Collaborators)
    (indicators : list Array) (file_names : list string) (roi : Roi) (res : Z)
    (roi_grid destination_grid output_format : option string) :
  output_format <> Some "GeoTiff" ->
  let run :=
    _write E indicators file_names roi res roi_grid destination_grid output_format in
  files_written (fst run) = []
  /\ (forall rp,
        _get_reprojection E res roi roi_grid destination_grid = Ok rp ->
        run = ([unsupported_format_warning output_format], Ok tt))
  /\ (forall e,
        _get_reprojection E res roi roi_grid destination_grid = Raise e ->
        run = ([], Raise e)).
Proof.
  intros Hf run. apply is_GeoTiff_false in Hf.
  assert (Hok : forall rp,
             _get_reprojection E res roi roi_grid destination_grid = Ok rp ->
             run = ([unsupported_format_warning output_format], Ok tt)).
  { intros rp H. unfold run. rewrite (write_resolved E _ _ _ _ _ _ _ _ H).
    unfold write_event. rewrite Hf. reflexivity. }
  assert (Hraise : forall e,
             _get_reprojection E res roi roi_grid destination_grid = Raise e ->
             run = ([], Raise e)).
  { intros e H. apply write_unresolved. exact H. }
  split; [|split; assumption].
  destruct (_get_reprojection E res roi roi_grid destination_grid) as [rp|e] eqn:H.
  - rewrite (Hok rp eq_refl). reflexivity.
  - rewrite (Hraise e eq_refl). reflexivity.
Qed.

Lemma unsupported_format_writes_nothing_witness :
  _write Demo.collaborators [[[0.5%float]]] ["out/NBR_20200101_20200116.tif"]
    (RoiPolygon Demo.square) 10 (Some "EPSG:4326") None (Some "NetCDF")
  = ([Warning "Writing of NetCDF not supported. Can not write post-processing results."],
     Ok tt).
Proof.
  refine (proj1 (proj2 (unsupported_format_writes_nothing Demo.collaborators
                          [[[0.5%float]]] ["out/NBR_20200101_20200116.tif"]
                          (RoiPolygon Demo.square) 10 (Some "EPSG:4326") None
                          (Some "NetCDF") _))
            (mkReprojection (8.5, 47.5, 9.5, 48.5)%float 10 10 (SetUTM 32 1)
               (ImportFromEPSG 4326)) _).
  - discriminate.
  - vm_compute. reflexivity.
Defined.

(** C6, refuted as stated: a call with format ["NetCDF"] raises when the
    ROI grid is not WGS84 and no destination grid is given. *)
Lemma unsupported_format_can_raise :
  _write Demo.collaborators [[[0.5%float]]] ["out/NBR_20200101_20200116.tif"]
    (RoiPolygon Demo.square) 10 (Some "EPSG:32632") None (Some "NetCDF")
  = ([],
     Raise (ValueError
              "Cannot derive destination grid for roi grid EPSG:32632. Please specify destination grid")).
Proof. vm_compute. reflexivity. Qed.

End RunTheorems.

Section NamingTheorems.

Import Pipeline PipelineFacts PyFacts Decide.

Lemma strftime_Ymd_reads_back (d : datetime) :
  Z.of_nat (year d) < 10000 -> Z.of_nat (month d) < 100 -> Z.of_nat (day d) < 100 ->
  String.length (strftime_Ymd d) = 8%nat
  /\ int (strftime_Ymd d)
     = Ok (Z.of_nat (year d) * 10000 + Z.of_nat (month d) * 100 + Z.of_nat (day d)).
Proof.
  intros Hy Hm Hd. unfold strftime_Ymd. split.
  - now rewrite !length_append, !length_zero_padded.
  - apply int_all_digits.
    + now rewrite !all_digits_append, !all_digits_zero_padded.
    + rewrite <- (append_nil_r (zero_padded 2 (day d))).
      rewrite !digits_zero_padded. cbn [digits]. f_equal.
      assert (H4 : Z.of_nat (10 ^ 4) = 10000) by reflexivity.
      assert (H2 : Z.of_nat (10 ^ 2) = 100) by reflexivity.
      rewrite !Nat.mod_small by (apply Nat2Z.inj_lt; lia).
      change (10 ^ Z.of_nat 4) with 10000. change (10 ^ Z.of_nat 2) with 100.
      ring.
Qed.



End NamingTheorems.

(** ** Progress *)

Module ProgressFacts.

Import Resolver Registry Pipeline PipelineSpec PipelineFacts Decide.
Local Open Scope list_scope.

Lemma collect_Ok_cons {A B : Type} (f : A -> Result B) (a : A) (l : list A)
    (bs : list B) :
  collect f (a :: l) = Ok bs ->
  exists b bs', f a = Ok b /\ collect f l = Ok bs' /\ bs = b :: bs'.
Proof.
  simpl. intro H. apply rbind_Ok in H. destruct H as [b [Hb H]].
  apply rbind_Ok in H. destruct H as [bs' [Hbs H]].
  inversion H. eauto.
Qed.

Lemma collect_length {A B : Type} (f : A -> Result B) (l : list A) (bs : list B) :
  collect f l = Ok bs -> List.length bs = List.length l.
Proof.
  revert bs. induction l as [|a l IH]; intros bs H.
  - inversion H. reflexivity.
  - apply collect_Ok_cons in H. destruct H as [b [bs' [_ [H ->]]]].
    simpl. now rewrite (IH _ H).
Qed.

Lemma collect_fst_combine {A B C : Type} (f : A -> Result C) (l : list A)
    (m : list B) :
  List.length l = List.length m ->
  collect (fun turn => f (fst turn)) (combine l m) = collect f l.
Proof.
  revert m. induction l as [|a l IH]; intros [|b m] H; try discriminate.
  - reflexivity.
  - simpl. rewrite IH; [reflexivity|]. simpl in H. congruence.
Qed.

Lemma length_range (n : Z) : List.length (range n) = Z.to_nat n.
Proof. unfold range. now rewrite length_map, length_seq. Qed.

Lemma in_range (n i : Z) : In i (range n) <-> 0 <= i < n.
Proof.
  unfold range. rewrite in_map_iff. split.
  - intros [k [<- Hk]]. apply in_seq in Hk. lia.
  - intro H. exists (Z.to_nat i). split; [lia|]. apply in_seq. lia.
Qed.

Lemma quiet_bind {A B : Type} (m : Run A) (k : A -> Run B) :
  quiet m -> (forall a, quiet (k a)) -> quiet (bind m k).
Proof.
  unfold quiet. destruct m as [t [a|e]]; simpl; intros Hm Hk; [|exact Hm].
  specialize (Hk a). destruct (k a) as [t' r]. simpl in *.
  now rewrite progress_values_app, Hm, Hk.
Qed.

Lemma quiet_lift {A : Type} (r : Result A) : quiet (lift r).
Proof. reflexivity. Qed.

(** The turns of a loop that reports its progress and then runs a body
    that returns. *)
Lemma for_each_turns {A : Type} (l : list A) (percent : A -> Result Z)
    (body : A -> Run unit) (vs : list Z) :
  collect percent l = Ok vs ->
  (forall a, In a l -> snd (body a) = Ok tt) ->
  for_each l (fun a => bind (lift (percent a))
                         (fun v => bind (emit (Progress v)) (fun _ => body a)))
  = (turns body (combine l vs), Ok tt).
Proof.
  revert vs. induction l as [|a l IH]; intros vs Hvs Hbody.
  - inversion Hvs. reflexivity.
  - apply collect_Ok_cons in Hvs. destruct Hvs as [v [vs' [Hv [Hvs ->]]]].
    cbn [for_each]. rewrite Hv, bind_lift_Ok, bind_emit.
    rewrite (Hbody a (or_introl eq_refl)).
    rewrite (IH vs' Hvs) by (intros b Hb; apply Hbody; now right).
    reflexivity.
Qed.

Lemma progress_values_turns {A : Type} (body : A -> Run unit) (l : list A)
    (vs : list Z) :
  (forall a, quiet (body a)) ->
  List.length vs = List.length l ->
  progress_values (turns body (combine l vs)) = vs.
Proof.
  intro Hq. revert vs. induction l as [|a l IH]; intros [|v vs] H; try discriminate.
  - reflexivity.
  - unfold turns. cbn [combine flat_map fst snd].
    change (Progress v :: fst (body a)) with ([Progress v] ++ fst (body a)).
    rewrite !progress_values_app. rewrite (Hq a).
    fold (turns body (combine l vs)). rewrite IH by (simpl in H; congruence).
    reflexivity.
Qed.

(** Non-decreasing, as a property. *)
Lemma non_decreasing_spec (l : list Z) (i j : nat) :
  non_decreasing l = true ->
  (i <= j < List.length l)%nat -> nth i l 0 <= nth j l 0.
Proof.
  revert i j. induction l as [|a l IH]; intros i j Hl Hij; [simpl in Hij; lia|].
  assert (Htail : non_decreasing l = true).
  { destruct l as [|b l']; [reflexivity|].
    cbn [non_decreasing] in Hl. apply andb_true_iff in Hl. apply Hl. }
  destruct j as [|j].
  - assert (i = 0)%nat by lia. subst. lia.
  - destruct i as [|i].
    + simpl nth at 1.
      transitivity (nth 0 l 0).
      * destruct l as [|b l']; [simpl in Hij; lia|].
        cbn [non_decreasing] in Hl. apply andb_true_iff in Hl.
        destruct Hl as [Hab _]. apply Z.leb_le in Hab. exact Hab.
      * simpl nth at 2. apply IH; [exact Htail|simpl in Hij; lia].
    + simpl. apply IH; [exact Htail|simpl in Hij; lia].
Qed.

Lemma near_exact_spec (total i v : Z) :
  0 < total ->
  near_exact total (i, v) = true ->
  v = exact_percentage i total \/ v = exact_percentage i total - 1.
Proof.
  intros Ht H. unfold near_exact in H. cbn [fst snd] in H.
  apply andb_true_iff in H. destruct H as [Hlo Hhi].
  apply Z.leb_le in Hlo. apply Z.ltb_lt in Hhi.
  unfold exact_percentage.
  pose proof (Z.mul_div_le (100 * i) total Ht) as Hle.
  pose proof (Z.mul_succ_div_gt (100 * i) total Ht) as Hgt.
  remember (100 * i / total) as f eqn:Hf. clear Hf.
  assert (Hvf : v < f + 1).
  { apply (Z.mul_lt_mono_pos_l total); [lia|nia]. }
  assert (Hfv : f < v + 2).
  { apply (Z.mul_lt_mono_pos_l total); [lia|nia]. }
  lia.
Qed.

Lemma progress_checked_to_366 : forallb progress_checked checked_totals = true.
Proof. vm_cast_no_check (eq_refl true). Qed.

Lemma progress_of_checked_total (total : Z) :
  1 <= total <= 366 ->
  exists vs,
    collect (fun i => percentage i total) (range total) = Ok vs
    /\ (forall i j : nat,
          (i <= j < List.length vs)%nat -> nth i vs 0 <= nth j vs 0)
    /\ (forall i v,
          In (i, v) (combine (range total) vs) ->
          v = exact_percentage i total \/ v = exact_percentage i total - 1).
Proof.
  intro Ht.
  assert (Hin : In total checked_totals).
  { unfold checked_totals. apply in_map_iff. exists (Z.to_nat total).
    split; [lia|]. apply in_seq. lia. }
  pose proof (proj1 (forallb_forall _ _) progress_checked_to_366 total Hin) as H.
  unfold progress_checked in H.
  destruct (collect (fun i => percentage i total) (range total)) as [vs|e];
    [|discriminate].
  apply andb_true_iff in H. destruct H as [Hs Hn].
  exists vs. split; [reflexivity|]. split.
  - intros i j Hij. now apply non_decreasing_spec.
  - intros i v Hiv.
    pose proof (proj1 (forallb_forall _ _) Hn (i, v) Hiv) as Hv.
    apply near_exact_spec; [lia|exact Hv].
Qed.

End ProgressFacts.

Section ProgressTheorems.

Import Resolver Registry Pipeline PipelineSpec PipelineFacts ProgressFacts Decide.
Local Open Scope list_scope.

Context (E : Collaborators).

Lemma write_quiet (indicators : list Array) (file_names : list string) (roi : Roi)
    (res : Z) (roi_grid destination_grid output_format : option string) :
  quiet (_write E indicators file_names roi res roi_grid destination_grid
           output_format).
Proof. apply write_no_progress. Qed.

Lemma eo_data_window_quiet (post_processor : PostProcessor E)
    (observations : Observations E) (output_path : string) (roi : Roi) (res : Z)
    (roi_grid destination_grid output_format : option string) (i : Z) :
  quiet (eo_data_window E post_processor observations output_path roi res roi_grid
           destination_grid output_format i).
Proof.
  unfold eo_data_window.
  apply quiet_bind; [apply quiet_lift|]. intro start_.
  apply quiet_bind; [apply quiet_lift|]. intro end_.
  apply quiet_bind; [reflexivity|]. intros _.
  apply quiet_bind; [apply quiet_lift|]. intro file_names.
  apply write_quiet.
Qed.

Lemma variable_group_quiet (post_processor : PostProcessor E) (rp : Reprojection)
    (output_path : string) (variable_names : list string) (roi : Roi) (res : Z)
    (roi_grid destination_grid output_format : option string)
    (group : string * list FileRef) :
  quiet (variable_group E post_processor rp output_path variable_names roi res
           roi_grid destination_grid output_format group).
Proof.
  unfold variable_group.
  apply quiet_bind; [reflexivity|]. intros _.
  apply quiet_bind; [apply quiet_lift|]. intro file_names.
  apply write_quiet.
Qed.

(** What the body of a window leaves when its two dates are there and
    the reprojection of the run resolves: the call of the processor,
    then the write. *)
Lemma eo_data_window_trace (post_processor : PostProcessor E)
    (observations : Observations E) (output_path : string) (roi : Roi) (res : Z)
    (roi_grid destination_grid output_format : option string) (i : Z)
    (rp : Reprojection) (start_ end_ : datetime) :
  _get_reprojection E res roi roi_grid destination_grid = Ok rp ->
  index (dates E observations) (Z.to_nat i) = Ok start_ ->
  index (dates E observations) (Z.to_nat (i + 1)) = Ok end_ ->
  let indicator_dict :=
    process_observations post_processor
      (get_observations_subset E observations start_ end_) in
  eo_data_window E post_processor observations output_path roi res roi_grid
    destination_grid output_format i
  = ([ProcessObservations (get_pp_name post_processor) start_ end_;
      write_event E rp output_format (map snd indicator_dict)
        (map (fun kv =>
                path_join output_path
                  (fst kv ++ "_" ++ strftime_Ymd start_ ++ "_"
                   ++ strftime_Ymd end_ ++ ".tif")%string)
           indicator_dict)],
     Ok tt).
Proof.
  intros Hrp Hs He indicator_dict. unfold eo_data_window.
  rewrite Hs, bind_lift_Ok, He, bind_lift_Ok, bind_emit.
  fold indicator_dict.
  rewrite (collect_pointwise _
             (fun kv => Ok (path_join output_path
                              (fst kv ++ "_" ++ strftime_Ymd start_ ++ "_"
                               ++ strftime_Ymd end_ ++ ".tif")%string))).
  - rewrite collect_total, bind_lift_Ok.
    rewrite (write_resolved E _ _ _ _ _ _ _ _ Hrp). reflexivity.
  - intro kv. apply double_file_name_of; apply format_of_datetime.
Qed.

End ProgressTheorems.

Section ProgressClaim.

Import Resolver Registry Pipeline PipelineSpec PipelineFacts ProgressFacts Decide.
Local Open Scope list_scope.




End ProgressClaim.

(** ** The registry, by name and under registration *)

Module LookupFacts.

Import Registry RegistrySpec RegistryFacts Decide.
Local Open Scope list_scope.

(** A loop that appends [f a] for every [a]. *)
Lemma fold_left_snoc {A B : Type} (f : A -> B) (l : list A) (init : list B) :
  fold_left (fun acc a => acc ++ [f a]) l init = init ++ map f l.
Proof.
  revert init. induction l as [|a l IH]; intro init; simpl.
  - now rewrite app_nil_r.
  - rewrite IH. now rewrite <- app_assoc.
Qed.

Lemma IndicatorDescription_eq_dec (a b : IndicatorDescription) : a = b \/ a <> b.
Proof.
  destruct (IndicatorDescription_eqb a b) eqn:H.
  - left. now apply IndicatorDescription_eqb_spec.
  - right. intro Heq. apply IndicatorDescription_eqb_spec in Heq. congruence.
Qed.

(** What the loop of [get_available_indicators] adds to the descriptions
    it starts from. *)
Lemma add_new_extends (l acc : list IndicatorDescription) :
  exists new,
    fold_left add_new l acc = acc ++ new
    /\ forall d, In d new <-> In d l /\ ~ In d acc.
Proof.
  revert acc. induction l as [|d l IH]; intro acc; simpl.
  - exists []. split; [now rewrite app_nil_r|]. simpl. tauto.
  - unfold add_new at 2. destruct (description_in d acc) eqn:Hd; simpl.
    + apply description_in_spec in Hd.
      destruct (IH acc) as [new [Heq Hnew]]. exists new. split; [exact Heq|].
      intro d'. rewrite Hnew. split; [tauto|].
      intros [[<-|H] Hn]; [contradiction|tauto].
    + assert (Hd' : ~ In d acc).
      { intro H. apply description_in_spec in H. congruence. }
      destruct (IH (acc ++ [d])) as [new [Heq Hnew]]. exists (d :: new). split.
      * rewrite Heq. now rewrite <- app_assoc.
      * intro d'. simpl. rewrite Hnew, in_app_iff. simpl. split.
        -- intros [<-|[Hl Hn]]; [tauto|]. split; [tauto|]. tauto.
        -- intros [[<-|Hl] Hn]; [tauto|].
           destruct (IndicatorDescription_eq_dec d d') as [->|Hne]; [tauto|].
           right. split; [exact Hl|]. intros [H|[H|[]]]; tauto.
Qed.

Section WithProcessors.
Context {P : Type}.

Lemma names_are_map (registry : list (PostProcessorCreator P)) :
  get_post_processor_names registry = map get_name registry.
Proof. unfold get_post_processor_names. apply (fold_left_snoc get_name registry []). Qed.

Lemma processors_are_resolved (registry : list (PostProcessorCreator P))
    (requested : list string) :
  get_post_processors registry requested = resolve_by_indicators registry requested.
Proof.
  unfold get_post_processors, resolve_by_indicators.
  rewrite (fold_left_pointwise _
             (fun acc c => if intersects requested c
                           then acc ++ [create_post_processor c
                                          (intersection requested c)]
                           else acc)).
  - exact (fold_left_append (intersects requested)
             (fun c => create_post_processor c (intersection requested c))
             registry []).
  - intros acc c. simpl. rewrite nonempty_intersects.
    now rewrite requested_names_of_intersection.
Qed.

(** Both look-ups by name stop at the first factory of that name. *)
Lemma lookups_find (registry : list (PostProcessorCreator P)) (name : string)
    (indicator_names : list string) :
  get_post_processor registry name indicator_names
  = match find (fun c => String.eqb name (get_name c)) registry with
    | Some c => Ok (create_post_processor c indicator_names)
    | None => Raise (no_post_processor name)
    end
  /\ get_post_processor_description registry name
     = match find (fun c => String.eqb name (get_name c)) registry with
       | Some c => Ok (get_description c)
       | None => Raise (no_post_processor name)
       end.
Proof.
  induction registry as [|c registry [IH1 IH2]]; simpl; [split; reflexivity|].
  destruct (String.eqb name (get_name c)); [split; reflexivity|].
  split; assumption.
Qed.

Lemma find_name_registered (registry : list (PostProcessorCreator P)) (name : string) :
  In name (get_post_processor_names registry)
  <-> exists c, find (fun c => String.eqb name (get_name c)) registry = Some c.
Proof.
  rewrite names_are_map.
  induction registry as [|c registry IH]; simpl.
  - split; [intros []|intros [c H]; discriminate].
  - destruct (String.eqb name (get_name c)) eqn:Hc.
    + apply String.eqb_eq in Hc. split; [intros _; now exists c|intros _; now left].
    + apply String.eqb_neq in Hc. rewrite <- IH. split; [|tauto].
      intros [H|H]; [congruence|exact H].
Qed.

Lemma find_name_app (registry rest : list (PostProcessorCreator P)) (name : string) :
  find (fun c => String.eqb name (get_name c)) (registry ++ rest)
  = match find (fun c => String.eqb name (get_name c)) registry with
    | Some c => Some c
    | None => find (fun c => String.eqb name (get_name c)) rest
    end.
Proof.
  induction registry as [|c registry IH]; simpl; [reflexivity|].
  destruct (String.eqb name (get_name c)); [reflexivity|exact IH].
Qed.

End WithProcessors.

End LookupFacts.

Section LookupTheorems.

Import Registry RegistrySpec RegistryFacts LookupFacts Decide.
Local Open Scope list_scope.

Context {P : Type}.

(** X1. The names of the registered post processors are the names of the
    factories in registration order, one for each factory, and
    registering a factory adds its name at the end, whether or not the
    name is already there. *)
Theorem names_follow_registration (registry : list (PostProcessorCreator P))
    (c : PostProcessorCreator P) :
  get_post_processor_names registry = map get_name registry
  /\ List.length (get_post_processor_names registry) = List.length registry
  /\ get_post_processor_names (add_post_processor_creator registry c)
     = get_post_processor_names registry ++ [get_name c].
Proof.
  split; [apply names_are_map|]. split.
  - rewrite names_are_map. apply length_map.
  - unfold add_post_processor_creator. rewrite !names_are_map, map_app. reflexivity.
Qed.

(** X2. A look-up by name, of a processor or of a description, answers
    from the first registered factory of that name: the processor is
    created by it with the indicator names given, whatever the factory
    declares, and the description is its description. Either look-up
    succeeds exactly when the name is among the registered names, and
    both raise [ValueError: No post processor with name <name> found.]
    otherwise. *)
Theorem lookup_by_name_takes_the_first (registry : list (PostProcessorCreator P))
    (name : string) (indicator_names : list string) :
  (forall before c after,
     registry = before ++ c :: after ->
     get_name c = name ->
     ~ In name (get_post_processor_names before) ->
     get_post_processor registry name indicator_names
     = Ok (create_post_processor c indicator_names)
     /\ get_post_processor_description registry name = Ok (get_description c))
  /\ (In name (get_post_processor_names registry)
      <-> exists p, get_post_processor registry name indicator_names = Ok p)
  /\ (In name (get_post_processor_names registry)
      <-> exists d, get_post_processor_description registry name = Ok d)
  /\ (~ In name (get_post_processor_names registry) ->
      get_post_processor registry name indicator_names
      = Raise (ValueError ("No post processor with name " ++ name ++ " found."))
      /\ get_post_processor_description registry name
         = Raise (ValueError ("No post processor with name " ++ name ++ " found."))).
Proof.
  destruct (lookups_find registry name indicator_names) as [Hp Hd].
  split; [|split; [|split]].
  - intros before c after -> Hc Hbefore.
    destruct (lookups_find (before ++ c :: after) name indicator_names) as [Hp' Hd'].
    rewrite Hp', Hd', find_name_app.
    destruct (find (fun c0 => String.eqb name (get_name c0)) before) as [c0|] eqn:Hf.
    + exfalso. apply Hbefore. apply find_name_registered. now exists c0.
    + simpl. rewrite Hc, String.eqb_refl. split; reflexivity.
  - rewrite find_name_registered, Hp. split.
    + intros [c ->]. eauto.
    + destruct (find _ registry) as [c|]; [eauto|intros [p H]; discriminate].
  - rewrite find_name_registered, Hd. split.
    + intros [c ->]. eauto.
    + destruct (find _ registry) as [c|]; [eauto|intros [p H]; discriminate].
  - intro Hn. rewrite Hp, Hd.
    destruct (find _ registry) as [c|] eqn:Hf; [|split; reflexivity].
    exfalso. apply Hn. apply find_name_registered. now exists c.
Qed.

(** X3. Registering a factory never changes what a name already
    registered resolves to: a later factory of the same name is
    shadowed. A name that was not registered resolves to the new
    factory when it is its name, and stays unknown otherwise. *)
Theorem registration_keeps_lookups (registry : list (PostProcessorCreator P))
    (c : PostProcessorCreator P) (name : string) (indicator_names : list string) :
  let registry' := add_post_processor_creator registry c in
  (In name (get_post_processor_names registry) ->
   get_post_processor registry' name indicator_names
   = get_post_processor registry name indicator_names
   /\ get_post_processor_description registry' name
      = get_post_processor_description registry name)
  /\ (~ In name (get_post_processor_names registry) ->
      get_name c = name ->
      get_post_processor registry' name indicator_names
      = Ok (create_post_processor c indicator_names)
      /\ get_post_processor_description registry' name = Ok (get_description c))
  /\ (~ In name (get_post_processor_names registry) ->
      get_name c <> name ->
      get_post_processor registry' name indicator_names
      = Raise (no_post_processor name)
      /\ get_post_processor_description registry' name
         = Raise (no_post_processor name)).
Proof.
  intro registry'. unfold registry', add_post_processor_creator.
  destruct (lookups_find registry name indicator_names) as [Hp Hd].
  destruct (lookups_find (registry ++ [c]) name indicator_names) as [Hp' Hd'].
  rewrite Hp', Hd', Hp, Hd, find_name_app.
  split; [|split].
  - intro Hin. apply find_name_registered in Hin. destruct Hin as [c0 ->].
    split; reflexivity.
  - intros Hn Hc.
    destruct (find _ registry) as [c0|] eqn:Hf.
    + exfalso. apply Hn. apply find_name_registered. now exists c0.
    + simpl. rewrite Hc, String.eqb_refl. split; reflexivity.
  - intros Hn Hc.
    destruct (find _ registry) as [c0|] eqn:Hf.
    + exfalso. apply Hn. apply find_name_registered. now exists c0.
    + simpl. replace (String.eqb name (get_name c)) with false; [split; reflexivity|].
      symmetry. apply String.eqb_neq. congruence.
Qed.

(** X4. Resolution by indicators goes through the registry factory by
    factory: the processors of two registries put one after the other
    are those of the first followed by those of the second, so a newly
    registered factory adds its processor at the end, if it declares a
    requested name, and a factory registered twice gives its processor
    twice. An empty request resolves to no processor. *)
Theorem resolution_goes_factory_by_factory
    (registry rest : list (PostProcessorCreator P)) (c : PostProcessorCreator P)
    (requested : list string) :
  get_post_processors (registry ++ rest) requested
  = get_post_processors registry requested ++ get_post_processors rest requested
  /\ get_post_processors (add_post_processor_creator registry c) requested
     = get_post_processors registry requested
       ++ (if intersects requested c
           then [create_post_processor c (intersection requested c)]
           else [])
  /\ (intersects requested c = true ->
      get_post_processors [c; c] requested
      = [create_post_processor c (intersection requested c);
         create_post_processor c (intersection requested c)])
  /\ get_post_processors registry [] = [].
Proof.
  rewrite !processors_are_resolved.
  unfold add_post_processor_creator, resolve_by_indicators.
  split; [|split; [|split]].
  - now rewrite filter_app, map_app.
  - rewrite filter_app, map_app. simpl.
    destruct (intersects requested c); reflexivity.
  - intro H. simpl. rewrite H. reflexivity.
  - induction registry as [|c0 registry IH]; simpl; [reflexivity|].
    replace (intersects [] c0) with false; [exact IH|].
    unfold intersects, intersection, str_in. simpl.
    induction (declared_names c0) as [|n l IHl]; simpl; [reflexivity|exact IHl].
Qed.

(** X5. Registering a factory keeps the available indicators there are,
    in their places, and adds after them the descriptions the factory
    declares that were not available yet; a factory that declares only
    available descriptions changes nothing. *)
Theorem registration_extends_available_indicators
    (registry : list (PostProcessorCreator P)) (c : PostProcessorCreator P) :
  let registry' := add_post_processor_creator registry c in
  (exists new,
     get_available_indicators registry' = get_available_indicators registry ++ new
     /\ forall d, In d new
                  <-> In d (get_indicator_descriptions c)
                      /\ ~ In d (get_available_indicators registry))
  /\ ((forall d, In d (get_indicator_descriptions c) ->
                 In d (get_available_indicators registry)) ->
      get_available_indicators registry' = get_available_indicators registry).
Proof.
  intro registry'.
  assert (Hstep : get_available_indicators registry'
                  = fold_left add_new (get_indicator_descriptions c)
                      (get_available_indicators registry)).
  { unfold registry', add_post_processor_creator, get_available_indicators.
    rewrite !available_indicators_flat, flat_map_app, fold_left_app. simpl.
    now rewrite app_nil_r. }
  destruct (add_new_extends (get_indicator_descriptions c)
              (get_available_indicators registry)) as [new [Heq Hnew]].
  split.
  - exists new. split; [now rewrite Hstep|exact Hnew].
  - intro Hall. rewrite Hstep, Heq.
    destruct new as [|d new]; [apply app_nil_r|].
    exfalso. destruct (proj1 (Hnew d) (or_introl eq_refl)) as [Hd Hn].
    apply Hn, Hall, Hd.
Qed.

End LookupTheorems.

(** ** Dictionaries and the groups of a variable run *)

Module DictFacts.

Local Open Scope list_scope.

Lemma dict_get_set_same {V : Type} (k : string) (v : V) (d : list (string * V)) :
  dict_get k (dict_set k v d) = Some v.
Proof.
  induction d as [|[k' v'] d IH]; simpl.
  - now rewrite String.eqb_refl.
  - destruct (String.eqb k' k) eqn:Hk; simpl; rewrite Hk; [reflexivity|exact IH].
Qed.

Lemma dict_get_set_other {V : Type} (k k' : string) (v : V) (d : list (string * V)) :
  k <> k' -> dict_get k' (dict_set k v d) = dict_get k' d.
Proof.
  intro Hne. induction d as [|[k0 v0] d IH]; simpl.
  - replace (String.eqb k k') with false; [reflexivity|].
    symmetry. now apply String.eqb_neq.
  - destruct (String.eqb k0 k) eqn:Hk; simpl.
    + apply String.eqb_eq in Hk. subst k0.
      replace (String.eqb k k') with false; [reflexivity|].
      symmetry. now apply String.eqb_neq.
    + now rewrite IH.
Qed.

Lemma dict_get_None {V : Type} (k : string) (d : list (string * V)) :
  dict_get k d = None <-> ~ In k (map fst d).
Proof.
  induction d as [|[k' v'] d IH]; simpl; [tauto|].
  destruct (String.eqb k' k) eqn:Hk.
  - apply String.eqb_eq in Hk. split; [discriminate|]. intro H. tauto.
  - apply String.eqb_neq in Hk. rewrite IH. tauto.
Qed.

(** Setting a key keeps the keys in place and adds a new key at the
    end. *)
Lemma dict_set_keys {V : Type} (k : string) (v : V) (d : list (string * V)) :
  map fst (dict_set k v d)
  = match dict_get k d with
    | Some _ => map fst d
    | None => map fst d ++ [k]
    end.
Proof.
  induction d as [|[k' v'] d IH]; simpl; [reflexivity|].
  destruct (String.eqb k' k) eqn:Hk; simpl; [reflexivity|].
  rewrite IH. destruct (dict_get k d); reflexivity.
Qed.

Lemma dict_set_new {V : Type} (k : string) (v : V) (d : list (string * V)) :
  dict_get k d = None -> dict_set k v d = d ++ [(k, v)].
Proof.
  induction d as [|[k' v'] d IH]; simpl; [reflexivity|].
  destruct (String.eqb k' k); [discriminate|].
  intro H. now rewrite IH.
Qed.

Lemma dict_get_In {V : Type} (k : string) (v : V) (d : list (string * V)) :
  NoDup (map fst d) -> (In (k, v) d <-> dict_get k d = Some v).
Proof.
  induction d as [|[k' v'] d IH]; simpl; intro Hnd.
  - split; [intros []|discriminate].
  - inversion Hnd as [|? ? Hk' Hnd']; subst.
    destruct (String.eqb k' k) eqn:Hk.
    + apply String.eqb_eq in Hk. subst k'. split.
      * intros [H|H]; [congruence|].
        exfalso. apply Hk'. apply in_map_iff. now exists (k, v).
      * intro H. left. congruence.
    + apply String.eqb_neq in Hk. rewrite <- (IH Hnd'). split; [|tauto].
      intros [H|H]; [congruence|exact H].
Qed.

End DictFacts.

Module GroupFacts.

Import Pipeline RunSpec DictFacts.
Local Open Scope list_scope.

(** One turn of the loop of [_group_file_refs_by_date]. *)
Lemma group_turn (groups : list (string * list FileRef)) (file_ref : FileRef) :
  (let file_ref_groups :=
     match dict_get (start_time file_ref) groups with
     | None => dict_set (start_time file_ref) [] groups
     | Some _ => groups
     end in
   match dict_get (start_time file_ref) file_ref_groups with
   | Some group =>
       dict_set (start_time file_ref) (group ++ [file_ref]) file_ref_groups
   | None => file_ref_groups
   end)
  = turn groups file_ref.
Proof.
  unfold turn. cbv zeta. destruct (dict_get (start_time file_ref) groups) as [group|] eqn:Hg.
  - rewrite Hg. reflexivity.
  - rewrite dict_get_set_same. rewrite (dict_set_new _ _ _ Hg).
    cbv beta iota. change ([] ++ [file_ref]) with [file_ref].
    induction groups as [|[k v] groups IH]; simpl in *.
    + now rewrite String.eqb_refl.
    + destruct (String.eqb k (start_time file_ref)); [discriminate|].
      now rewrite (IH Hg).
Qed.

Lemma group_loop (file_refs : list FileRef) :
  _group_file_refs_by_date file_refs = fold_left turn file_refs [].
Proof.
  unfold _group_file_refs_by_date.
  apply RegistryFacts.fold_left_pointwise. intros groups file_ref. apply group_turn.
Qed.

Lemma turn_get (groups : list (string * list FileRef)) (file_ref : FileRef)
    (k : string) :
  dict_get k (turn groups file_ref)
  = if String.eqb (start_time file_ref) k
    then Some (match dict_get k groups with
               | Some group => group
               | None => []
               end ++ [file_ref])
    else dict_get k groups.
Proof.
  unfold turn. destruct (String.eqb (start_time file_ref) k) eqn:Hk.
  - apply String.eqb_eq in Hk. subst k.
    destruct (dict_get (start_time file_ref) groups) as [group|] eqn:Hg.
    + apply dict_get_set_same.
    + rewrite <- (dict_set_new _ _ _ Hg). apply dict_get_set_same.
  - apply String.eqb_neq in Hk.
    destruct (dict_get (start_time file_ref) groups) as [group|] eqn:Hg.
    + now apply dict_get_set_other.
    + rewrite <- (dict_set_new _ [file_ref] _ Hg). now apply dict_get_set_other.
Qed.

Lemma turn_keys (groups : list (string * list FileRef)) (file_ref : FileRef) :
  map fst (turn groups file_ref)
  = match dict_get (start_time file_ref) groups with
    | Some _ => map fst groups
    | None => map fst groups ++ [start_time file_ref]
    end.
Proof.
  unfold turn. destruct (dict_get (start_time file_ref) groups) as [group|] eqn:Hg.
  - rewrite dict_set_keys, Hg. reflexivity.
  - now rewrite map_app.
Qed.

(** The group of a key after the loop: what was there, followed by the
    files that start at the key. *)
Lemma loop_get (file_refs : list FileRef) (groups : list (string * list FileRef))
    (k : string) :
  dict_get k (fold_left turn file_refs groups)
  = match dict_get k groups, starting_at k file_refs with
    | None, [] => None
    | None, files => Some files
    | Some group, files => Some (group ++ files)
    end.
Proof.
  revert groups. induction file_refs as [|f file_refs IH]; intro groups; simpl.
  - destruct (dict_get k groups); [now rewrite app_nil_r|reflexivity].
  - rewrite IH, turn_get. unfold starting_at. simpl.
    fold (starting_at k file_refs).
    destruct (String.eqb (start_time f) k).
    + destruct (dict_get k groups) as [group|]; simpl.
      * now rewrite <- app_assoc.
      * reflexivity.
    + reflexivity.
Qed.

Lemma loop_NoDup (file_refs : list FileRef) (groups : list (string * list FileRef)) :
  NoDup (map fst groups) -> NoDup (map fst (fold_left turn file_refs groups)).
Proof.
  revert groups. induction file_refs as [|f file_refs IH]; intros groups H; simpl.
  - exact H.
  - apply IH. rewrite turn_keys.
    destruct (dict_get (start_time f) groups) eqn:Hg; [exact H|].
    apply dict_get_None in Hg.
    apply NoDup_app; [exact H|repeat constructor; intros []|].
    intros k Hk [<-|[]]. contradiction.
Qed.

Lemma filter_filter_pointwise {A : Type} (p q r : A -> bool) (l : list A) :
  (forall a, p a = (q a && r a)%bool) -> filter p l = filter q (filter r l).
Proof.
  intro H. induction l as [|a l IH]; simpl; [reflexivity|].
  rewrite H. destruct (r a); simpl.
  - rewrite andb_true_r. destruct (q a); now rewrite IH.
  - rewrite andb_false_r. exact IH.
Qed.

(** The keys after the loop: those that were there, followed by the new
    start times, each at its first occurrence. *)
Lemma loop_keys (file_refs : list FileRef) (groups : list (string * list FileRef)) :
  map fst (fold_left turn file_refs groups)
  = map fst groups
    ++ filter (fun k => negb (Registry.str_in k (map fst groups)))
         (first_seen (map start_time file_refs)).
Proof.
  revert groups. induction file_refs as [|f file_refs IH]; intro groups; simpl.
  - now rewrite app_nil_r.
  - rewrite IH, turn_keys.
    destruct (dict_get (start_time f) groups) eqn:Hg.
    + assert (Hin : Registry.str_in (start_time f) (map fst groups) = true).
      { apply RegistryFacts.str_in_spec.
        destruct (in_dec string_dec (start_time f) (map fst groups)) as [H|H];
          [exact H|]. apply dict_get_None in H. congruence. }
      rewrite Hin. simpl. f_equal.
      rewrite <- (filter_filter_pointwise
                    (fun k => negb (Registry.str_in k (map fst groups)))
                    (fun k => negb (Registry.str_in k (map fst groups)))
                    (fun k' => negb (String.eqb k' (start_time f))));
        [reflexivity|].
      intro k. destruct (String.eqb k (start_time f)) eqn:Hk; simpl.
      * apply String.eqb_eq in Hk. subst k. now rewrite Hin.
      * now rewrite andb_true_r.
    + assert (Hin : Registry.str_in (start_time f) (map fst groups) = false).
      { apply dict_get_None in Hg.
        destruct (Registry.str_in (start_time f) (map fst groups)) eqn:H;
          [|reflexivity].
        apply RegistryFacts.str_in_spec in H. contradiction. }
      rewrite Hin. simpl. rewrite <- app_assoc. simpl. do 2 f_equal.
      apply filter_filter_pointwise.
      intro k. unfold Registry.str_in. rewrite existsb_app. simpl.
      rewrite orb_false_r, negb_orb. reflexivity.
Qed.

Lemma loop_files (file_refs : list FileRef) (groups : list (string * list FileRef)) :
  Permutation (flat_map snd (fold_left turn file_refs groups))
    (flat_map snd groups ++ file_refs).
Proof.
  revert groups. induction file_refs as [|f file_refs IH]; intro groups; simpl.
  - now rewrite app_nil_r.
  - rewrite IH.
    replace (flat_map snd groups ++ f :: file_refs)
      with ((flat_map snd groups ++ [f]) ++ file_refs)
      by now rewrite <- app_assoc.
    apply Permutation_app_tail.
    unfold turn. destruct (dict_get (start_time f) groups) as [group|] eqn:Hg.
    + clear IH. induction groups as [|[k v] groups IHg]; simpl in *; [discriminate|].
      destruct (String.eqb k (start_time f)); simpl.
      * inversion Hg; subst v.
        rewrite <- !app_assoc. apply Permutation_app_head.
        apply Permutation_app_comm.
      * rewrite <- app_assoc. apply Permutation_app_head. now apply IHg.
    + rewrite flat_map_app. simpl. reflexivity.
Qed.

End GroupFacts.

Section GroupTheorems.

Import Pipeline RunSpec DictFacts GroupFacts.
Local Open Scope list_scope.

(** X6. The groups of a variable run are keyed by the distinct start
    times of the files, in the order in which each start time first
    occurs; the group of a start time holds exactly the files that start
    then, in the order of the list, and is never empty; no file is lost
    or repeated; no files give no groups. *)
Theorem groups_follow_start_times (file_refs : list FileRef) :
  let groups := _group_file_refs_by_date file_refs in
  map fst groups = first_seen (map start_time file_refs)
  /\ NoDup (map fst groups)
  /\ (forall key group,
        In (key, group) groups
        <-> group = starting_at key file_refs /\ group <> [])
  /\ (forall key, In key (map start_time file_refs)
                  <-> exists group, dict_get key groups = Some group)
  /\ Permutation (flat_map snd groups) file_refs
  /\ (file_refs = [] <-> groups = []).
Proof.
  intro groups. unfold groups. rewrite group_loop.
  assert (Hnd : NoDup (map fst (fold_left turn file_refs []))).
  { apply loop_NoDup. constructor. }
  assert (Hget : forall key,
             dict_get key (fold_left turn file_refs [])
             = match starting_at key file_refs with
               | [] => None
               | files => Some files
               end).
  { intro key. now rewrite loop_get. }
  assert (Hkeys : map fst (fold_left turn file_refs [])
                  = first_seen (map start_time file_refs)).
  { rewrite loop_keys. simpl.
    induction (first_seen (map start_time file_refs)) as [|k l IH];
      simpl; [reflexivity|]. now rewrite IH. }
  split; [exact Hkeys|]. split; [exact Hnd|]. split; [|split; [|split]].
  - intros key group. rewrite (dict_get_In _ _ _ Hnd), Hget.
    destruct (starting_at key file_refs) as [|f files]; split.
    + discriminate.
    + intros [-> H]. now contradiction H.
    + intro H. inversion H. split; [reflexivity|discriminate].
    + intros [-> _]. reflexivity.
  - intro key. rewrite Hget. unfold starting_at. split.
    + intro Hin. apply in_map_iff in Hin. destruct Hin as [f [Hf Hin]].
      assert (Hfil : In f (filter (fun file_ref => String.eqb (start_time file_ref) key)
                             file_refs)).
      { apply filter_In. split; [exact Hin|]. now apply String.eqb_eq. }
      destruct (filter _ file_refs) as [|f0 files]; [destruct Hfil|eauto].
    + intros [group H].
      destruct (filter (fun file_ref => String.eqb (start_time file_ref) key)
                  file_refs) as [|f files] eqn:Hfil; [discriminate|].
      assert (Hin : In f (filter (fun file_ref => String.eqb (start_time file_ref) key)
                            file_refs)) by (rewrite Hfil; now left).
      apply filter_In in Hin. destruct Hin as [Hin Hk].
      apply String.eqb_eq in Hk. apply in_map_iff. now exists f.
  - exact (loop_files file_refs []).
  - split.
    + intros ->. reflexivity.
    + intro H. pose proof (loop_files file_refs []) as Hp. rewrite H in Hp.
      simpl in Hp. now apply Permutation_nil in Hp.
Qed.

End GroupTheorems.

Section DataFilesTheorems.

Import Registry RegistryFacts Pipeline RunSpec DictFacts.
Local Open Scope list_scope.

Context (E : Collaborators).

Lemma data_files_loop (variable_names : list string) (file_refs : list FileRef)
    (data_files : list (string * string)) (name : string) :
  dict_get name
    (fold_left
       (fun data_files variable_name =>
          match find (fun file_ref => is_valid E (url file_ref) variable_name)
                  file_refs with
          | Some file_ref => dict_set variable_name (url file_ref) data_files
          | None => data_files
          end)
       variable_names data_files)
  = if str_in name variable_names
    then match first_valid E name file_refs with
         | Some file_ref => Some (url file_ref)
         | None => dict_get name data_files
         end
    else dict_get name data_files.
Proof.
  revert data_files.
  induction variable_names as [|v variable_names IH]; intro data_files; simpl.
  - reflexivity.
  - rewrite IH. fold (first_valid E v file_refs).
    destruct (String.eqb name v) eqn:Hv; simpl.
    + apply String.eqb_eq in Hv. subst v.
      destruct (first_valid E name file_refs) as [f|].
      * rewrite dict_get_set_same. now destruct (str_in name variable_names).
      * now destruct (str_in name variable_names).
    + apply String.eqb_neq in Hv.
      assert (Hget : dict_get name
                       match first_valid E v file_refs with
                       | Some file_ref => dict_set v (url file_ref) data_files
                       | None => data_files
                       end = dict_get name data_files).
      { destruct (first_valid E v file_refs);
          [apply dict_get_set_other; congruence|reflexivity]. }
      now rewrite Hget.
Qed.

Lemma data_files_NoDup (variable_names : list string) (file_refs : list FileRef)
    (data_files : list (string * string)) :
  NoDup (map fst data_files) ->
  NoDup (map fst
           (fold_left
              (fun data_files variable_name =>
                 match find (fun file_ref => is_valid E (url file_ref) variable_name)
                         file_refs with
                 | Some file_ref => dict_set variable_name (url file_ref) data_files
                 | None => data_files
                 end)
              variable_names data_files)).
Proof.
  revert data_files.
  induction variable_names as [|v variable_names IH]; intros data_files H; simpl.
  - exact H.
  - apply IH. destruct (find _ file_refs) as [f|]; [|exact H].
    rewrite dict_set_keys. destruct (dict_get v data_files) eqn:Hg; [exact H|].
    apply dict_get_None in Hg.
    apply NoDup_app; [exact H|repeat constructor; intros []|].
    intros k Hk [<-|[]]. contradiction.
Qed.

(** X7. Among the files of a date, each requested variable gets the URL
    of the first file that is valid for it; a variable with no valid
    file, and a name that was not requested, get none. Every URL chosen
    is that of a file of the date which is valid for the variable, and
    no variable is listed twice, however often it is requested. *)
Theorem data_files_are_the_first_valid (variable_names : list string)
    (file_refs_for_date : list FileRef) :
  let data_files := data_files_of E variable_names file_refs_for_date in
  (forall name,
     dict_get name data_files
     = if str_in name variable_names
       then option_map url (first_valid E name file_refs_for_date)
       else None)
  /\ (forall name u,
        In (name, u) data_files ->
        In name variable_names
        /\ exists file_ref,
             In file_ref file_refs_for_date /\ url file_ref = u
             /\ is_valid E u name = true)
  /\ NoDup (map fst data_files)
  /\ data_files_of E variable_names [] = [].
Proof.
  intro data_files.
  assert (Hget : forall name,
             dict_get name data_files
             = if str_in name variable_names
               then option_map url (first_valid E name file_refs_for_date)
               else None).
  { intro name. unfold data_files, data_files_of. rewrite data_files_loop.
    destruct (str_in name variable_names); [|reflexivity].
    now destruct (first_valid E name file_refs_for_date). }
  assert (Hnd : NoDup (map fst data_files)).
  { apply data_files_NoDup. constructor. }
  split; [exact Hget|]. split; [|split; [exact Hnd|]].
  - intros name u Hin. apply (dict_get_In _ _ _ Hnd) in Hin.
    rewrite Hget in Hin.
    destruct (str_in name variable_names) eqn:Hn; [|discriminate].
    apply str_in_spec in Hn. split; [exact Hn|].
    unfold first_valid in Hin.
    destruct (find _ file_refs_for_date) as [f|] eqn:Hf; [|discriminate].
    apply find_some in Hf. destruct Hf as [Hf Hv].
    inversion Hin; subst u. now exists f.
  - clear Hget Hnd data_files. unfold data_files_of.
    induction variable_names as [|v l IH]; [reflexivity|exact IH].
Qed.

End DataFilesTheorems.

(** ** Whole runs *)

Module TraceFacts.

Import Resolver Registry Pipeline PipelineSpec PipelineFacts ProgressFacts Decide RunSpec.
Local Open Scope list_scope.

Lemma every_bind {A B : Type} (Q : Event -> Prop) (m : Run A) (k : A -> Run B) :
  Forall Q (fst m) -> (forall a, Forall Q (fst (k a))) -> Forall Q (fst (bind m k)).
Proof.
  destruct m as [t [a|e]]; simpl; intros Hm Hk; [|exact Hm].
  specialize (Hk a). destruct (k a) as [t' r]. simpl in *.
  apply Forall_app. now split.
Qed.

Lemma every_lift {A : Type} (Q : Event -> Prop) (r : Result A) : Forall Q (fst (lift r)).
Proof. constructor. Qed.

Lemma every_for_each {A : Type} (Q : Event -> Prop) (l : list A) (body : A -> Run unit) :
  (forall a, Forall Q (fst (body a))) -> Forall Q (fst (for_each l body)).
Proof.
  intro H. induction l as [|a l IH]; simpl; [constructor|].
  apply every_bind; [apply H|intros _; exact IH].
Qed.

Lemma files_written_app (t u : list Event) :
  files_written (t ++ u) = files_written t ++ files_written u.
Proof. apply flat_map_app. Qed.

Lemma files_written_turns {A : Type} (body : A -> Run unit) (l : list A) (vs : list Z) :
  List.length vs = List.length l ->
  files_written (turns body (combine l vs))
  = flat_map (fun a => files_written (fst (body a))) l.
Proof.
  revert vs. induction l as [|a l IH]; intros [|v vs] H; try discriminate.
  - reflexivity.
  - unfold turns. cbn [combine flat_map fst snd].
    change (Progress v :: fst (body a)) with ([Progress v] ++ fst (body a)).
    rewrite !files_written_app. fold (turns body (combine l vs)).
    rewrite IH by (simpl in H; congruence). reflexivity.
Qed.

Lemma flat_map_pointwise {A B : Type} (f g : A -> list B) (l : list A) :
  (forall a, In a l -> f a = g a) -> flat_map f l = flat_map g l.
Proof.
  induction l as [|a l IH]; intro H; simpl; [reflexivity|].
  rewrite (H a (or_introl eq_refl)), IH; [reflexivity|].
  intros b Hb. apply H. now right.
Qed.

Lemma flat_map_nil {A B : Type} (l : list A) : flat_map (fun _ : A => @nil B) l = [].
Proof. induction l as [|a l IH]; [reflexivity|exact IH]. Qed.

(** A loop stops at the first turn that raises: the turns before it
    are done, the turns after it are not. *)
Lemma for_each_stops {A : Type} (before after : list A) (a : A)
    (body : A -> Run unit) (e : PyError) :
  (forall b, In b before -> snd (body b) = Ok tt) ->
  snd (body a) = Raise e ->
  for_each (before ++ a :: after) body
  = (flat_map (fun b => fst (body b)) before ++ fst (body a), Raise e).
Proof.
  intros Hbefore Ha. induction before as [|b before IH]; simpl.
  - destruct (body a) as [t r]. simpl in *. subst r. reflexivity.
  - pose proof (Hbefore b (or_introl eq_refl)) as Hb.
    destruct (body b) as [t r]. simpl in Hb. subst r. simpl.
    rewrite IH by (intros c Hc; apply Hbefore; now right).
    now rewrite app_assoc.
Qed.

Lemma files_written_of_write (E : Collaborators) (rp : Reprojection)
    (output_format : option string) (indicators : list Array)
    (file_names : list string) :
  files_written [write_event E rp output_format indicators file_names]
  = if is_GeoTiff output_format then file_names else [].
Proof.
  unfold write_event. destruct (is_GeoTiff output_format); simpl; [|reflexivity].
  apply app_nil_r.
Qed.

Lemma index_nth_error {A : Type} (l : list A) (i : nat) :
  (i < List.length l)%nat -> exists a, nth_error l i = Some a /\ index l i = Ok a.
Proof.
  intro H. unfold index. destruct (nth_error l i) as [a|] eqn:Hn; [eauto|].
  apply nth_error_None in Hn. lia.
Qed.

Lemma progress_starts_at_zero_to_366 : forallb starts_at_zero checked_totals = true.
Proof. vm_cast_no_check (eq_refl true). Qed.

(** The progress values of a loop of up to 366 turns: computed, from 0
    on, never decreasing, and below 100. *)
Lemma progress_in_range (total : Z) :
  1 <= total <= 366 ->
  exists vs,
    collect (fun i => percentage i total) (range total) = Ok vs
    /\ nth 0 vs 0 = 0
    /\ Forall (fun v => 0 <= v < 100) vs.
Proof.
  intro Ht.
  destruct (progress_of_checked_total total Ht) as [vs [Hvs [Hmono Hnear]]].
  exists vs. split; [exact Hvs|].
  assert (Hlen : List.length vs = List.length (range total)).
  { apply (collect_length _ _ _ Hvs). }
  assert (Hzero : nth 0 vs 0 = 0).
  { assert (Hin : In total checked_totals).
    { unfold checked_totals. apply in_map_iff. exists (Z.to_nat total).
      split; [lia|]. apply in_seq. lia. }
    pose proof (proj1 (forallb_forall _ _) progress_starts_at_zero_to_366 total Hin)
      as H0.
    unfold starts_at_zero in H0.
    assert (Hr : range total = 0 :: map Z.of_nat (seq 1 (Z.to_nat total - 1))).
    { unfold range. replace (Z.to_nat total) with (S (Z.to_nat total - 1)) at 1 by lia.
      reflexivity. }
    rewrite Hr in Hvs. apply collect_Ok_cons in Hvs.
    destruct Hvs as [v [vs' [Hv [_ ->]]]]. rewrite Hv in H0.
    apply Z.eqb_eq in H0. exact H0. }
  split; [exact Hzero|].
  apply Forall_forall. intros v Hv.
  destruct (In_nth vs v 0 Hv) as [j [Hj Hvj]].
  split.
  - pose proof (Hmono 0%nat j) as H0. rewrite Hzero, Hvj in H0. apply H0. lia.
  - assert (Hin : In (nth j (range total) 0, v) (combine (range total) vs)).
    { rewrite <- Hvj, <- combine_nth by (symmetry; exact Hlen).
      apply nth_In. rewrite length_combine. lia. }
    assert (Hi : 0 <= nth j (range total) 0 < total).
    { apply in_range. apply nth_In. lia. }
    specialize (Hnear _ _ Hin). unfold exact_percentage in Hnear.
    assert (100 * nth j (range total) 0 / total < 100).
    { apply Z.div_lt_upper_bound; lia. }
    lia.
Qed.

Section WithCollaborators.
Context (E : Collaborators).

Lemma write_on_geometry (indicators : list Array) (file_names : list string)
    (roi : Roi) (res : Z) (roi_grid destination_grid output_format : option string)
    (rp : Reprojection) :
  _get_reprojection E res roi roi_grid destination_grid = Ok rp ->
  Forall (written_on (reproject_dummy E rp) (ExportToWkt E (destination_srs rp)))
    (fst (_write E indicators file_names roi res roi_grid destination_grid
            output_format)).
Proof.
  intro Hrp. rewrite (write_resolved E _ _ _ _ _ _ _ _ Hrp). simpl.
  constructor; [|constructor].
  unfold write_event, unsupported_format_warning.
  destruct (is_GeoTiff output_format); simpl; auto.
Qed.

(** What the body of a date group leaves when its date is read and the
    reprojection of the run resolves: the call of the processor, then
    the write. *)
Lemma variable_group_trace (post_processor : PostProcessor E) (rp rp' : Reprojection)
    (output_path : string) (variable_names : list string) (roi : Roi) (res : Z)
    (roi_grid destination_grid output_format : option string)
    (group : string * list FileRef) (date : datetime) :
  _get_reprojection E res roi roi_grid destination_grid = Ok rp' ->
  get_time_from_string E (fst group) = Ok date ->
  let variable_data :=
    map (fun kv => (fst kv, read_reprojected E rp (snd kv)))
      (data_files_of E variable_names (snd group)) in
  let indicator_dict := process_variables post_processor variable_data in
  variable_group E post_processor rp output_path variable_names roi res roi_grid
    destination_grid output_format group
  = ([ProcessVariables (get_pp_name post_processor) (fst group)
        (map fst variable_data);
      write_event E rp' output_format (map snd indicator_dict)
        (map (fun kv => path_join output_path
                          (fst kv ++ "_" ++ strftime_Ymd date ++ ".tif")%string)
           indicator_dict)],
     Ok tt).
Proof.
  intros Hrp Hdate variable_data indicator_dict. unfold variable_group.
  rewrite bind_emit. fold variable_data. fold indicator_dict.
  rewrite (collect_pointwise _
             (fun kv => Ok (path_join output_path
                              (fst kv ++ "_" ++ strftime_Ymd date ++ ".tif")%string))).
  - rewrite collect_total, bind_lift_Ok.
    rewrite (write_resolved E _ _ _ _ _ _ _ _ Hrp). reflexivity.
  - intro kv. apply single_file_name_of. unfold _format. now rewrite Hdate.
Qed.

End WithCollaborators.

End TraceFacts.

Section WholeRunTheorems.

Import Resolver Registry Pipeline PipelineSpec PipelineFacts ProgressFacts Decide.
Import RunSpec DictFacts GroupFacts LookupFacts TraceFacts.
Local Open Scope list_scope.

Lemma group_keys_are_start_times (file_refs : list FileRef) (key : string) :
  In key (map fst (_group_file_refs_by_date file_refs)) ->
  In key (map start_time file_refs).
Proof.
  rewrite group_loop. intro Hin.
  destruct (dict_get key (fold_left turn file_refs [])) as [group|] eqn:Hg.
  - rewrite loop_get in Hg. simpl in Hg. unfold starting_at in Hg.
    destruct (filter (fun file_ref => String.eqb (start_time file_ref) key) file_refs)
      as [|f files] eqn:Hf; [discriminate|].
    assert (Hfin : In f (filter (fun file_ref => String.eqb (start_time file_ref) key)
                           file_refs)) by (rewrite Hf; now left).
    apply filter_In in Hfin. destruct Hfin as [Hfin Hk].
    apply String.eqb_eq in Hk. apply in_map_iff. now exists f.
  - apply dict_get_None in Hg. contradiction.
Qed.

Lemma flat_map_snd_combine {A B C : Type} (h : B -> list C) (l : list A) (m : list B) :
  List.length l = List.length m ->
  flat_map (fun turn : A * B => h (snd turn)) (combine l m) = flat_map h m.
Proof.
  revert m. induction l as [|a l IH]; intros [|b m] H; try discriminate.
  - reflexivity.
  - simpl. rewrite IH; [reflexivity|]. simpl in H. congruence.
Qed.

Lemma in_combine_snd {A B : Type} (l : list A) (m : list B) (t : A * B) :
  In t (combine l m) -> In (snd t) m.
Proof. destruct t as [a b]. apply in_combine_r. Qed.

(** X8. All rasters of a run are written on one grid in one projection:
    in a run of either path whose reprojection resolves, every GeoTiff
    write carries the size and geotransform of the dummy data set under
    that reprojection and the WKT of its destination reference, whatever
    the window or date, and also when the run raises part-way. *)
Theorem one_geometry_per_run (E : Collaborators) (post_processor : PostProcessor E)
    (data_path output_path : string) (roi : Roi) (res : Z)
    (roi_grid destination_grid output_format : option string) (rp : Reprojection) :
  _get_reprojection E res roi roi_grid destination_grid = Ok rp ->
  let same_geometry :=
    written_on (reproject_dummy E rp) (ExportToWkt E (destination_srs rp)) in
  Forall same_geometry
    (fst (_run_eo_data_post_processor E post_processor data_path output_path roi
            res roi_grid destination_grid output_format))
  /\ (forall variable_names,
        Forall same_geometry
          (fst (_run_variable_post_processor E post_processor data_path output_path
                  variable_names roi res roi_grid destination_grid output_format)))
  /\ (forall variable_names,
        Forall same_geometry
          (fst (run_actual_post_processor E post_processor data_path output_path
                  roi res variable_names roi_grid destination_grid output_format))).
Proof.
  intros Hrp same_geometry.
  assert (Heo : Forall same_geometry
                  (fst (_run_eo_data_post_processor E post_processor data_path
                          output_path roi res roi_grid destination_grid
                          output_format))).
  { unfold _run_eo_data_post_processor. rewrite Hrp, bind_lift_Ok.
    destruct (_ <? 2).
    - repeat constructor.
    - apply every_for_each. intro i. unfold eo_data_step.
      apply every_bind; [apply every_lift|]. intro percent.
      apply every_bind; [repeat constructor|]. intros _.
      unfold eo_data_window.
      apply every_bind; [apply every_lift|]. intro start_.
      apply every_bind; [apply every_lift|]. intro end_.
      apply every_bind; [repeat constructor|]. intros _.
      apply every_bind; [apply every_lift|]. intro file_names.
      now apply write_on_geometry. }
  assert (Hvar : forall variable_names,
             Forall same_geometry
               (fst (_run_variable_post_processor E post_processor data_path
                       output_path variable_names roi res roi_grid destination_grid
                       output_format))).
  { intro variable_names. unfold _run_variable_post_processor.
    rewrite Hrp, bind_lift_Ok.
    apply every_for_each. intro turn. unfold variable_step.
    apply every_bind; [apply every_lift|]. intro percent.
    apply every_bind; [repeat constructor|]. intros _.
    unfold variable_group.
    apply every_bind; [repeat constructor|]. intros _.
    apply every_bind; [apply every_lift|]. intro file_names.
    now apply write_on_geometry. }
  split; [exact Heo|]. split; [exact Hvar|].
  intro variable_names. unfold run_actual_post_processor.
  destruct (get_type post_processor); [exact Heo|].
  destruct variable_names as [variable_names|]; [apply Hvar|constructor].
Qed.

Lemma one_geometry_per_run_witness :
  Forall (written_on (mkGrid 1 1 []) "PROJCS")
    (fst (_run_eo_data_post_processor Demo.collaborators Demo.burn_severity "two"
            "out" (RoiPolygon Demo.square) 10 (Some "EPSG:4326") None
            (Some "GeoTiff"))).
Proof.
  refine (proj1 (one_geometry_per_run Demo.collaborators Demo.burn_severity "two"
                   "out" (RoiPolygon Demo.square) 10 (Some "EPSG:4326") None
                   (Some "GeoTiff")
                   (mkReprojection (8.5, 47.5, 9.5, 48.5)%float 10 10
                      (SetUTM 32 1) (ImportFromEPSG 4326)) _)).
  vm_compute. reflexivity.
Defined.

(** X9. A run whose reprojection cannot be resolved raises the
    resolver's error before anything is logged, processed or written, on
    either path and whatever files there are; only the missing list of
    variable names of a variable processor is reported first. *)
Theorem unresolved_reprojection_stops_the_run (E : Collaborators)
    (post_processor : PostProcessor E) (data_path output_path : string) (roi : Roi)
    (res : Z) (roi_grid destination_grid output_format : option string)
    (e : PyError) :
  _get_reprojection E res roi roi_grid destination_grid = Raise e ->
  _run_eo_data_post_processor E post_processor data_path output_path roi res
    roi_grid destination_grid output_format = ([], Raise e)
  /\ (forall variable_names,
        _run_variable_post_processor E post_processor data_path output_path
          variable_names roi res roi_grid destination_grid output_format
        = ([], Raise e))
  /\ (forall variable_names,
        run_actual_post_processor E post_processor data_path output_path roi res
          variable_names roi_grid destination_grid output_format
        = ([], Raise match get_type post_processor, variable_names with
                     | VARIABLE_POST_PROCESSOR, None => missing_variable_names
                     | _, _ => e
                     end)).
Proof.
  intro Hrp.
  assert (Heo : _run_eo_data_post_processor E post_processor data_path output_path
                  roi res roi_grid destination_grid output_format = ([], Raise e)).
  { unfold _run_eo_data_post_processor. now rewrite Hrp. }
  assert (Hvar : forall variable_names,
             _run_variable_post_processor E post_processor data_path output_path
               variable_names roi res roi_grid destination_grid output_format
             = ([], Raise e)).
  { intro variable_names. unfold _run_variable_post_processor. now rewrite Hrp. }
  split; [exact Heo|]. split; [exact Hvar|].
  intro variable_names. unfold run_actual_post_processor.
  destruct (get_type post_processor); [exact Heo|].
  destruct variable_names as [variable_names|]; [apply Hvar|reflexivity].
Qed.

Lemma unresolved_reprojection_stops_the_run_witness :
  _run_eo_data_post_processor Demo.collaborators Demo.burn_severity "two" "out"
    (RoiPolygon Demo.square) 10 (Some "EPSG:32632") None (Some "GeoTiff")
  = ([],
     Raise (ValueError
              "Cannot derive destination grid for roi grid EPSG:32632. Please specify destination grid")).
Proof.
  refine (proj1 (unresolved_reprojection_stops_the_run Demo.collaborators
                   Demo.burn_severity "two" "out" (RoiPolygon Demo.square) 10
                   (Some "EPSG:32632") None (Some "GeoTiff") _ _)).
  vm_compute. reflexivity.
Defined.

(** X10. An observation run over n observations, 2 <= n <= 367, whose
    reprojection resolves and whose observation set lists a date for
    each observation, returns after n - 1 turns: for the GeoTiff format
    it writes, window after window, one file for each indicator the
    processor returns for the window, named
    <indicator>_<start>_<end>.tif under the output path, and for any
    other format it writes no file; it sends n - 1 progress values, all
    from 0 to 99. *)
Theorem observation_run_writes_each_window (E : Collaborators)
    (post_processor : PostProcessor E) (data_path output_path : string) (roi : Roi)
    (res : Z) (roi_grid destination_grid output_format : option string)
    (rp : Reprojection) :
  _get_reprojection E res roi roi_grid destination_grid = Ok rp ->
  let observations :=
    create_observations E
      (get_valid_files E data_path
         (get_names_of_supported_eo_data_types post_processor)) rp in
  let n := get_num_observations E observations in
  let run :=
    _run_eo_data_post_processor E post_processor data_path output_path roi res
      roi_grid destination_grid output_format in
  2 <= n <= 367 ->
  (Z.to_nat n <= List.length (dates E observations))%nat ->
  snd run = Ok tt
  /\ files_written (fst run)
     = (if is_GeoTiff output_format
        then flat_map (window_file_names E post_processor observations output_path)
               (range (n - 1))
        else [])
  /\ List.length (progress_values (fst run)) = Z.to_nat (n - 1)
  /\ Forall (fun v => 0 <= v < 100) (progress_values (fst run)).
Proof.
  intros Hrp observations n run Hn Hdates.
  destruct (progress_in_range (n - 1)) as [vs [Hvs [_ Hbounds]]]; [lia|].
  set (window := eo_data_window E post_processor observations output_path roi res
                   roi_grid destination_grid output_format).
  assert (Hwindow : forall i, In i (range (n - 1)) ->
             window i
             = ([ProcessObservations (get_pp_name post_processor)
                   (nth (Z.to_nat i) (dates E observations) (mkDatetime 0 0 0 0 0 0))
                   (nth (Z.to_nat (i + 1)) (dates E observations)
                      (mkDatetime 0 0 0 0 0 0));
                 write_event E rp output_format
                   (map snd
                      (process_observations post_processor
                         (get_observations_subset E observations
                            (nth (Z.to_nat i) (dates E observations)
                               (mkDatetime 0 0 0 0 0 0))
                            (nth (Z.to_nat (i + 1)) (dates E observations)
                               (mkDatetime 0 0 0 0 0 0)))))
                   (window_file_names E post_processor observations output_path i)],
                Ok tt)).
  { intros i Hi. apply in_range in Hi.
    destruct (index_nth_error (dates E observations) (Z.to_nat i)) as [s [Hs Hs']];
      [lia|].
    destruct (index_nth_error (dates E observations) (Z.to_nat (i + 1)))
      as [d [Hd Hd']]; [lia|].
    unfold window.
    rewrite (eo_data_window_trace E post_processor observations output_path roi res
               roi_grid destination_grid output_format i rp s d Hrp Hs' Hd').
    unfold window_file_names. rewrite Hs, Hd.
    rewrite (nth_error_nth _ _ _ Hs), (nth_error_nth _ _ _ Hd). reflexivity. }
  assert (Hrun : run = (turns window (combine (range (n - 1)) vs), Ok tt)).
  { unfold run, _run_eo_data_post_processor. rewrite Hrp, bind_lift_Ok.
    fold observations. fold n.
    replace (n <? 2) with false by (symmetry; apply Z.ltb_ge; lia).
    apply (for_each_turns (range (n - 1)) (fun i => percentage i (n - 1))
             window vs Hvs).
    intros i Hi. now rewrite (Hwindow i Hi). }
  assert (Hlen : List.length vs = List.length (range (n - 1))).
  { apply (collect_length _ _ _ Hvs). }
  assert (Hprogress : progress_values (fst run) = vs).
  { rewrite Hrun. simpl fst. apply progress_values_turns; [|exact Hlen].
    intro i. apply eo_data_window_quiet. }
  split; [now rewrite Hrun|]. split; [|split].
  - rewrite Hrun. simpl fst. rewrite (files_written_turns _ _ _ Hlen).
    rewrite (flat_map_pointwise _
               (fun i => if is_GeoTiff output_format
                         then window_file_names E post_processor observations
                                output_path i
                         else [])).
    + destruct (is_GeoTiff output_format); [reflexivity|apply flat_map_nil].
    + intros i Hi. rewrite (Hwindow i Hi). simpl fst.
      apply files_written_of_write.
  - rewrite Hprogress, Hlen. apply length_range.
  - now rewrite Hprogress.
Qed.

Lemma observation_run_writes_each_window_witness :
  files_written
    (fst (_run_eo_data_post_processor Demo.collaborators Demo.burn_severity "two"
            "out" (RoiPolygon Demo.square) 10 (Some "EPSG:4326") None
            (Some "GeoTiff")))
  = ["out/BurnSeverity_20200101_20200116.tif"].
Proof.
  refine (proj1 (proj2 (observation_run_writes_each_window Demo.collaborators
                          Demo.burn_severity "two" "out" (RoiPolygon Demo.square) 10
                          (Some "EPSG:4326") None (Some "GeoTiff")
                          (mkReprojection (8.5, 47.5, 9.5, 48.5)%float 10 10
                             (SetUTM 32 1) (ImportFromEPSG 4326)) _ _ _))).
  - vm_compute. reflexivity.
  - vm_compute. split; discriminate.
  - apply Nat.leb_le. vm_compute. reflexivity.
Defined.

(** X11. A variable run over the files of at most 366 distinct start
    times, whose reprojection resolves and whose start times are read as
    dates, returns after one turn for each start time: for the GeoTiff
    format it writes, date after date in the order in which the dates
    first occur among the files, one file for each indicator the
    processor returns, named <indicator>_<date>.tif under the output
    path, and for any other format it writes no file; it sends one
    progress value for each date, all from 0 to 99. With no file at all
    it does nothing. *)
Theorem variable_run_writes_each_date (E : Collaborators)
    (post_processor : PostProcessor E) (data_path output_path : string)
    (variable_names : list string) (roi : Roi) (res : Z)
    (roi_grid destination_grid output_format : option string) (rp : Reprojection) :
  _get_reprojection E res roi roi_grid destination_grid = Ok rp ->
  let file_refs := get_valid_files E data_path variable_names in
  let groups := _group_file_refs_by_date file_refs in
  let run :=
    _run_variable_post_processor E post_processor data_path output_path
      variable_names roi res roi_grid destination_grid output_format in
  (List.length groups <= 366)%nat ->
  (forall file_ref, In file_ref file_refs ->
     exists date, get_time_from_string E (start_time file_ref) = Ok date) ->
  snd run = Ok tt
  /\ files_written (fst run)
     = (if is_GeoTiff output_format
        then flat_map (group_file_names E post_processor rp output_path variable_names)
               groups
        else [])
  /\ List.length (progress_values (fst run)) = List.length groups
  /\ Forall (fun v => 0 <= v < 100) (progress_values (fst run))
  /\ (file_refs = [] -> run = ([], Ok tt)).
Proof.
  intros Hrp file_refs groups run Hgroups Hdates.
  set (total := Z.of_nat (List.length groups)).
  set (group := fun turn : Z * (string * list FileRef) =>
                  variable_group E post_processor rp output_path variable_names roi
                    res roi_grid destination_grid output_format (snd turn)).
  assert (Hempty : file_refs = [] -> run = ([], Ok tt)).
  { intro H. unfold run, _run_variable_post_processor. rewrite Hrp, bind_lift_Ok.
    fold file_refs. rewrite H. reflexivity. }
  assert (Hvs : exists vs,
             collect (fun i => percentage i total) (range total) = Ok vs
             /\ Forall (fun v => 0 <= v < 100) vs).
  { destruct groups as [|g groups'] eqn:Hg.
    - exists []. split; [reflexivity|constructor].
    - destruct (progress_in_range total) as [vs [Hvs [_ Hb]]].
      + unfold total. simpl List.length in *. lia.
      + exists vs. now split. }
  destruct Hvs as [vs [Hvs Hbounds]].
  assert (Hlen : List.length (range total) = List.length groups).
  { rewrite length_range. unfold total. apply Nat2Z.id. }
  assert (Hvs' : collect (fun turn : Z * (string * list FileRef) =>
                            percentage (fst turn) total) (enumerate groups)
                 = Ok vs).
  { unfold enumerate. fold total.
    rewrite (collect_fst_combine (fun i => percentage i total) _ _ Hlen).
    exact Hvs. }
  assert (Hgroup : forall turn, In turn (enumerate groups) ->
             exists date,
               get_time_from_string E (fst (snd turn)) = Ok date
               /\ group turn
                  = ([ProcessVariables (get_pp_name post_processor) (fst (snd turn))
                        (map fst
                           (map (fun kv => (fst kv, read_reprojected E rp (snd kv)))
                              (data_files_of E variable_names (snd (snd turn)))));
                      write_event E rp output_format
                        (map snd
                           (process_variables post_processor
                              (map (fun kv =>
                                      (fst kv, read_reprojected E rp (snd kv)))
                                 (data_files_of E variable_names (snd (snd turn))))))
                        (map (fun kv => path_join output_path
                                          (fst kv ++ "_" ++ strftime_Ymd date
                                           ++ ".tif")%string)
                           (process_variables post_processor
                              (map (fun kv =>
                                      (fst kv, read_reprojected E rp (snd kv)))
                                 (data_files_of E variable_names
                                    (snd (snd turn))))))],
                     Ok tt)).
  { intros turn Hturn. apply in_combine_snd in Hturn.
    assert (Hkey : In (fst (snd turn)) (map start_time file_refs)).
    { apply group_keys_are_start_times. apply in_map_iff. now exists (snd turn). }
    apply in_map_iff in Hkey. destruct Hkey as [f [Hf Hin]].
    destruct (Hdates f Hin) as [date Hdate]. rewrite Hf in Hdate.
    exists date. split; [exact Hdate|].
    unfold group.
    exact (variable_group_trace E post_processor rp rp output_path variable_names
             roi res roi_grid destination_grid output_format (snd turn) date
             Hrp Hdate). }
  assert (Hrun : run = (turns group (combine (enumerate groups) vs), Ok tt)).
  { unfold run, _run_variable_post_processor. rewrite Hrp, bind_lift_Ok.
    fold file_refs. fold groups. fold total.
    apply (for_each_turns (enumerate groups)
             (fun turn => percentage (fst turn) total) group vs Hvs').
    intros turn Hturn. destruct (Hgroup turn Hturn) as [date [_ ->]]. reflexivity. }
  assert (Hlen' : List.length vs = List.length (enumerate groups)).
  { apply (collect_length _ _ _ Hvs'). }
  assert (Hprogress : progress_values (fst run) = vs).
  { rewrite Hrun. simpl fst. apply progress_values_turns; [|exact Hlen'].
    intro turn. apply variable_group_quiet. }
  split; [now rewrite Hrun|]. split; [|split; [|split]].
  - rewrite Hrun. simpl fst. rewrite (files_written_turns _ _ _ Hlen').
    rewrite (flat_map_pointwise _
               (fun turn => if is_GeoTiff output_format
                            then group_file_names E post_processor rp output_path
                                   variable_names (snd turn)
                            else [])).
    + destruct (is_GeoTiff output_format); [|apply flat_map_nil].
      unfold enumerate.
      apply (flat_map_snd_combine
               (group_file_names E post_processor rp output_path variable_names)
               _ _ Hlen).
    + intros turn Hturn. destruct (Hgroup turn Hturn) as [date [Hdate Hg]].
      rewrite Hg. simpl fst. unfold group_file_names. rewrite Hdate.
      apply files_written_of_write.
  - rewrite Hprogress, Hlen'. unfold enumerate. fold total.
    rewrite length_combine, Hlen. apply Nat.min_id.
  - now rewrite Hprogress.
  - exact Hempty.
Qed.

Lemma variable_run_writes_each_date_witness :
  files_written
    (fst (_run_variable_post_processor Demo.collaborators Demo.sma "two" "out"
            ["S2"] (RoiPolygon Demo.square) 10 (Some "EPSG:4326") None
            (Some "GeoTiff")))
  = ["out/SMA_20200101.tif"; "out/SMA_20200116.tif"].
Proof.
  refine (proj1 (proj2 (variable_run_writes_each_date Demo.collaborators Demo.sma
                          "two" "out" ["S2"] (RoiPolygon Demo.square) 10
                          (Some "EPSG:4326") None (Some "GeoTiff")
                          (mkReprojection (8.5, 47.5, 9.5, 48.5)%float 10 10
                             (SetUTM 32 1) (ImportFromEPSG 4326)) _ _ _))).
  - vm_compute. reflexivity.
  - apply Nat.leb_le. vm_compute. reflexivity.
  - intros file_ref [<-|[<-|[]]]; eexists; vm_compute; reflexivity.
Defined.

(** X12. Running a post processor by a name that is not registered
    raises [ValueError: No post processor with name <name> found.]
    before anything is logged, processed or written, whatever the other
    arguments are. *)
Theorem unknown_name_stops_the_run (E : Collaborators)
    (registry : list (PostProcessorCreator (PostProcessor E)))
    (name data_path output_path : string) (roi : Roi) (res : Z)
    (indicator_names : Argument (list string))
    (variable_names : Argument (option (list string)))
    (roi_grid destination_grid output_format : Argument (option string)) :
  ~ In name (get_post_processor_names registry) ->
  run_post_processor E registry name data_path output_path roi res indicator_names
    variable_names roi_grid destination_grid output_format
  = ([], Raise (ValueError ("No post processor with name " ++ name ++ " found."))).
Proof.
  intro Hn. unfold run_post_processor.
  destruct (lookups_find registry name (or_default [] indicator_names)) as [-> _].
  destruct (find _ registry) as [c|] eqn:Hf; [|reflexivity].
  exfalso. apply Hn. apply find_name_registered. now exists c.
Qed.

Lemma unknown_name_stops_the_run_witness :
  run_post_processor Demo.collaborators [Demo.creator_a; Demo.creator_b] "NBR"
    "two" "out" (RoiPolygon Demo.square) 10 Omitted Omitted Omitted Omitted Omitted
  = ([], Raise (ValueError "No post processor with name NBR found.")).
Proof.
  refine (unknown_name_stops_the_run Demo.collaborators
            [Demo.creator_a; Demo.creator_b] "NBR" "two" "out"
            (RoiPolygon Demo.square) 10 Omitted Omitted Omitted Omitted Omitted _).
  vm_compute. intros [H|[H|[]]]; discriminate.
Defined.

(** X13. A batch run stops at the first processor whose run raises: the
    processors resolved before it have run and written, those after it
    are not run, and the error is the error of the batch. In particular
    a variable processor selected by a batch that gives no variable
    names ends the batch with [ValueError: No list with variable names
    be provided.] after the processors before it. *)
Theorem batch_stops_at_first_error (E : Collaborators)
    (registry : list (PostProcessorCreator (PostProcessor E)))
    (indicator_names : list string) (data_path output_path : string) (roi : Roi)
    (res : Z) (variable_names : Argument (option (list string)))
    (roi_grid destination_grid output_format : Argument (option string))
    (before after : list (PostProcessor E)) (p : PostProcessor E) :
  let body post_processor :=
    run_actual_post_processor E post_processor data_path output_path roi res
      (or_default None variable_names) (or_default default_roi_grid roi_grid)
      (or_default None destination_grid)
      (or_default default_output_format output_format) in
  let run :=
    run_post_processing E registry indicator_names data_path output_path roi res
      variable_names roi_grid destination_grid output_format in
  get_post_processors registry indicator_names = before ++ p :: after ->
  (forall b, In b before -> snd (body b) = Ok tt) ->
  (forall e, snd (body p) = Raise e ->
             run = (flat_map (fun b => fst (body b)) before ++ fst (body p), Raise e))
  /\ (get_type p = VARIABLE_POST_PROCESSOR ->
      or_default None variable_names = None ->
      run = (flat_map (fun b => fst (body b)) before, Raise missing_variable_names)).
Proof.
  intros body run Hpp Hbefore.
  assert (Hstop : forall e, snd (body p) = Raise e ->
             run = (flat_map (fun b => fst (body b)) before ++ fst (body p),
                    Raise e)).
  { intros e He. unfold run, run_post_processing. rewrite Hpp.
    exact (for_each_stops before after p body e Hbefore He). }
  split; [exact Hstop|].
  intros Htype Hnames.
  assert (Hp : body p = ([], Raise missing_variable_names)).
  { unfold body, run_actual_post_processor. rewrite Htype, Hnames. reflexivity. }
  rewrite (Hstop missing_variable_names) by now rewrite Hp.
  rewrite Hp. simpl. now rewrite app_nil_r.
Qed.

Lemma batch_stops_at_first_error_witness :
  run_post_processing Demo.collaborators [Demo.creator_a; Demo.creator_b] ["NBR"]
    "two" "out" (RoiPolygon Demo.square) 10 Omitted Omitted Omitted Omitted
  = ([Progress 0;
      ProcessObservations "BurnSeverity" (mkDatetime 2020 1 1 0 0 0)
        (mkDatetime 2020 1 16 0 0 0);
      GeoTiffWrite ["out/BurnSeverity_20200101_20200116.tif"] (mkGrid 1 1 [])
        "PROJCS" [[[0.5%float]]]],
     Raise (ValueError "No list with variable names be provided.")).
Proof.
  refine (proj2 (batch_stops_at_first_error Demo.collaborators
                   [Demo.creator_a; Demo.creator_b] ["NBR"] "two" "out"
                   (RoiPolygon Demo.square) 10 Omitted Omitted Omitted Omitted
                   [Demo.burn_severity] [] Demo.sma _ _) _ _).
  - reflexivity.
  - intros b [<-|[]]. vm_compute. reflexivity.
  - reflexivity.
  - reflexivity.
Defined.

End WholeRunTheorems.

(** ** The resolver at its edges *)

Section ResolverEdges.

Import Resolver PyFacts ResolverFacts Decide.

Lemma split_digits_then_colon (d t : string) :
  all_digits d = true -> split ":" (d ++ String ":" t) = d :: split ":" t.
Proof.
  induction d as [|c r IH]; simpl; [reflexivity|].
  destruct (digit_value c) as [v|] eqn:Hc; [|discriminate].
  intro Hr. destruct (Ascii.eqb c ":") eqn:Hcolon.
  - apply Ascii.eqb_eq in Hcolon. subst c. discriminate Hc.
  - now rewrite (IH Hr).
Qed.

(** X14. A hint is read as an EPSG code exactly when it starts with
    [EPSG:], in upper case: any other text is taken as WKT and never
    raises; a hint that starts with [EPSG:] gives an EPSG reference or
    raises, and never falls back to WKT. The code is what stands between
    the first and the second colon: text after a second colon is
    ignored, and an empty code raises [ValueError]. *)
Theorem hints_are_read_by_prefix :
  (forall wkt,
     prefix "EPSG:" wkt = false ->
     _get_reference_system (Some wkt) = Ok (Some (ImportFromWkt wkt)))
  /\ (forall wkt r,
        prefix "EPSG:" wkt = true ->
        _get_reference_system (Some wkt) = Ok r ->
        exists code, r = Some (ImportFromEPSG code))
  /\ (forall d rest code,
        all_digits d = true -> digits d 0 false = Some code ->
        _get_reference_system (Some ("EPSG:" ++ d ++ ":" ++ rest))
        = Ok (Some (ImportFromEPSG code)))
  /\ _get_reference_system (Some "EPSG:")
     = Raise (ValueError "invalid literal for int() with base 10: ''")
  /\ _get_reference_system (Some "epsg:4326")
     = Ok (Some (ImportFromWkt "epsg:4326")).
Proof.
  split; [exact wkt_hint_resolves|]. split; [|split; [|split]].
  - intros wkt r Hp H. unfold _get_reference_system in H. rewrite Hp in H.
    apply rbind_Ok in H. destruct H as [code_text [_ H]].
    apply rbind_Ok in H. destruct H as [code [_ H]].
    inversion H. now exists code.
  - intros d rest code Hd Hcode. unfold _get_reference_system.
    replace (prefix "EPSG:" ("EPSG:" ++ d ++ ":" ++ rest)) with true
      by (simpl; destruct (d ++ String ":" rest)%string; reflexivity).
    change (split ":" ("EPSG:" ++ d ++ ":" ++ rest))
      with ("EPSG" :: split ":" (d ++ String ":" rest)).
    rewrite (split_digits_then_colon d rest Hd). cbn [index nth_error rbind].
    rewrite (int_all_digits d code Hd Hcode). reflexivity.
  - vm_compute. reflexivity.
  - vm_compute. reflexivity.
Qed.

(** X15. At every whole degree of longitude from 180 W up to, but not
    including, 180 E the zone computed is one of the sixty UTM zones; at
    180 E itself it is 61, which is none. A centroid on the equator, or
    whose latitude is not a number, is given the southern hemisphere;
    a longitude that is not a number or is infinite makes the resolver
    raise. *)
Theorem utm_zone_range :
  (forall k, -180 <= k < 180 ->
     exists zone, utm_zone_of (float_of_Z k) = Ok zone /\ 1 <= zone <= 60)
  /\ utm_zone_of (float_of_Z 180) = Ok 61
  /\ (forall lon, _get_projected_srs (mkPoint lon 0)
                  = rbind (utm_zone_of lon) (fun zone => Ok (SetUTM zone 0)))
  /\ (forall lon, _get_projected_srs (mkPoint lon nan)
                  = rbind (utm_zone_of lon) (fun zone => Ok (SetUTM zone 0)))
  /\ (forall lat, _get_projected_srs (mkPoint nan lat)
                  = Raise (ValueError "cannot convert float NaN to integer"))
  /\ (forall lat, _get_projected_srs (mkPoint infinity lat)
                  = Raise (OverflowError "cannot convert float infinity to integer")).
Proof.
  split; [|split; [|split; [|split; [|split]]]].
  - intros k Hk. exists ((k + 180) / 6 + 1). split.
    + apply zone_at_whole_degree. lia.
    + assert (0 <= (k + 180) / 6 < 60); [|lia]. split.
      * apply Z.div_pos; lia.
      * apply Z.div_lt_upper_bound; lia.
  - apply (zone_at_whole_degree 180). lia.
  - intro lon. reflexivity.
  - intro lon. reflexivity.
  - intro lat. unfold _get_projected_srs. cbn [x].
    replace (utm_zone_of nan)
      with (@Raise Z (ValueError "cannot convert float NaN to integer"))
      by (vm_compute; reflexivity).
    reflexivity.
  - intro lat. unfold _get_projected_srs. cbn [x].
    replace (utm_zone_of infinity)
      with (@Raise Z (OverflowError "cannot convert float infinity to integer"))
      by (vm_compute; reflexivity).
    reflexivity.
Qed.

(** X16. A region of interest given as text is parsed before any hint is
    looked at: when it does not parse, the parser's error is the error
    of the resolver, whatever the hints; when it parses, the resolver
    answers as for the polygon. Whenever the resolver returns, the
    reprojection carries the bounds of the region and the spatial
    resolution on both axes, and its two references are equal when only
    the destination hint was given. *)
Theorem reprojection_keeps_bounds_and_resolution (E : Collaborators) (res : Z)
    (roi_grid destination_grid : option string) :
  (forall text e,
     loads E text = Raise e ->
     _get_reprojection E res (RoiWkt text) roi_grid destination_grid = Raise e)
  /\ (forall text p,
        loads E text = Ok p ->
        _get_reprojection E res (RoiWkt text) roi_grid destination_grid
        = _get_reprojection E res (RoiPolygon p) roi_grid destination_grid)
  /\ (forall p rp,
        _get_reprojection E res (RoiPolygon p) roi_grid destination_grid = Ok rp ->
        rp_bounds rp = bounds p /\ x_res rp = res /\ y_res rp = res
        /\ (roi_grid = None -> destination_grid <> None ->
            roi_srs rp = destination_srs rp)).
Proof.
  split; [|split].
  - intros text e H. unfold _get_reprojection. now rewrite H.
  - intros text p H. unfold _get_reprojection. now rewrite H.
  - intros p rp H. unfold _get_reprojection in H. cbn [rbind] in H.
    apply rbind_Ok in H. destruct H as [rs [Hrs H]].
    apply rbind_Ok in H. destruct H as [ds [Hds H]].
    apply rbind_Ok in H. destruct H as [srs [Hsrs H]].
    inversion H; subst rp; clear H. cbn [rp_bounds x_res y_res roi_srs destination_srs].
    repeat split; try reflexivity.
    intros Hrg Hdg. subst roi_grid. inversion Hrs; subst rs.
    destruct ds as [d|].
    + inversion Hsrs. reflexivity.
    + exfalso. apply Hdg.
      exact (proj2 (reference_system_absent destination_grid None Hds) eq_refl).
Qed.

End ResolverEdges.

(** ** Date stamps *)

Section DateStampTheorems.

Import Pipeline PipelineFacts RunSpec.

(** X17. The date stamp of a file name tells calendar days apart and
    nothing else: two dates (with a year below 10000) have the same
    stamp exactly when they fall on the same day, whatever the time of
    day; so two start times of a variable run that are read as the same
    day give the same file name for an indicator. *)
Theorem date_stamp_is_the_day (E : Collaborators) :
  (forall a b,
     Z.of_nat (year a) < 10000 -> Z.of_nat (month a) < 100 ->
     Z.of_nat (day a) < 100 ->
     Z.of_nat (year b) < 10000 -> Z.of_nat (month b) < 100 ->
     Z.of_nat (day b) < 100 ->
     (strftime_Ymd a = strftime_Ymd b <-> same_day a b))
  /\ (forall a b, same_day a b ->
                  _format E (TimeDatetime a) = _format E (TimeDatetime b))
  /\ (forall s t a b output_path indicator,
        get_time_from_string E s = Ok a ->
        get_time_from_string E t = Ok b ->
        same_day a b ->
        single_file_name E output_path indicator (TimeStr s)
        = single_file_name E output_path indicator (TimeStr t)).
Proof.
  assert (Hsame : forall a b, same_day a b -> strftime_Ymd a = strftime_Ymd b).
  { intros a b [Hy [Hm Hd]]. unfold strftime_Ymd. now rewrite Hy, Hm, Hd. }
  split; [|split].
  - intros a b Hya Hma Hda Hyb Hmb Hdb. split; [|apply Hsame].
    intro Heq.
    destruct (strftime_Ymd_reads_back a Hya Hma Hda) as [_ Ha].
    destruct (strftime_Ymd_reads_back b Hyb Hmb Hdb) as [_ Hb].
    rewrite Heq, Hb in Ha. inversion Ha as [Hnum].
    unfold same_day. repeat split; lia.
  - intros a b Hab. unfold _format. cbn [rbind]. now rewrite (Hsame a b Hab).
  - intros s t a b output_path indicator Hs Ht Hab.
    unfold single_file_name, _format. rewrite Hs, Ht. cbn [rbind].
    now rewrite (Hsame a b Hab).
Qed.

End DateStampTheorems.

(** ** The command line *)

Section CommandLineTheorems.

Import Resolver Registry Pipeline PipelineSpec Cli ResolverFacts.

(** X18. From the command line a variable post processor cannot be run:
    the command line has no option for variable names, so when the name
    given is that of a processor of the variable type the run raises
    [ValueError: No list with variable names be provided.] before
    anything is logged, processed or written. *)
Theorem command_line_cannot_run_variable_processors (E : Collaborators)
    (registry : list (PostProcessorCreator (PostProcessor E))) (args : Namespace)
    (res : Z) (post_processor : PostProcessor E) :
  int (args_spatial_resolution args) = Ok res ->
  get_post_processor registry (args_name args) [] = Ok post_processor ->
  get_type post_processor = VARIABLE_POST_PROCESSOR ->
  main E registry args = ([], Raise missing_variable_names).
Proof.
  intros Hres Hpp Htype. unfold main. rewrite Hres, bind_lift_Ok.
  unfold run_post_processor. cbn [or_default]. rewrite Hpp, bind_lift_Ok.
  unfold run_actual_post_processor. now rewrite Htype.
Qed.

Lemma command_line_cannot_run_variable_processors_witness :
  main Demo.collaborators [Demo.creator_a; Demo.creator_b]
    (mkNamespace "SMA" "two" "out" None "POLYGON" "10" None None)
  = ([], Raise (ValueError "No list with variable names be provided.")).
Proof.
  refine (command_line_cannot_run_variable_processors Demo.collaborators
            [Demo.creator_a; Demo.creator_b]
            (mkNamespace "SMA" "two" "out" None "POLYGON" "10" None None)
            10 Demo.sma _ _ _).
  - vm_compute. reflexivity.
  - reflexivity.
  - reflexivity.
Defined.

(** X19. The command line hands its options over as they are: the
    spatial resolution is read as an integer first, and text that is
    not one ends the run there; the format is GeoTiff when none is
    given; the processor is created with no indicator names; and a
    grid that is not given is passed as [None], not left to the
    defaults of the entry point. So with [--destination_grid] alone the
    region of interest is read in the destination grid, where the entry
    point called without [roi_grid] reads it in WGS84. *)
Theorem command_line_passes_options_as_given (E : Collaborators)
    (registry : list (PostProcessorCreator (PostProcessor E))) (args : Namespace) :
  (forall e,
     int (args_spatial_resolution args) = Raise e ->
     main E registry args = ([], Raise e))
  /\ (forall res,
        int (args_spatial_resolution args) = Ok res ->
        main E registry args
        = run_post_processor E registry (args_name args) (args_input_path args)
            (args_output_path args) (RoiWkt (args_roi args)) res (Passed [])
            (Passed None) (Passed (args_roi_grid args))
            (Passed (args_destination_grid args))
            (Passed (Some match args_format args with
                          | None => "GeoTiff"
                          | Some f => f
                          end)))
  /\ (forall res p hint d,
        args_roi_grid args = None ->
        args_destination_grid args = Some hint ->
        loads E (args_roi args) = Ok p ->
        _get_reference_system (Some hint) = Ok (Some d) ->
        _get_reprojection E res (RoiWkt (args_roi args)) (args_roi_grid args)
          (args_destination_grid args)
        = Ok (mkReprojection (bounds p) res res d d)
        /\ _get_reprojection E res (RoiWkt (args_roi args))
             (or_default default_roi_grid Omitted) (args_destination_grid args)
           = Ok (mkReprojection (bounds p) res res d wgs84_srs)).
Proof.
  split; [|split].
  - intros e H. unfold main. now rewrite H.
  - intros res H. unfold main. now rewrite H, bind_lift_Ok.
  - intros res p hint d Hrg Hdg Hp Hd. rewrite Hrg, Hdg.
    unfold or_default, default_roi_grid, _get_reprojection. rewrite Hp.
    cbn [rbind]. rewrite Hd, wgs84_hint_resolves. cbn [rbind].
    split; reflexivity.
Qed.

End CommandLineTheorems.

(** ** Batches *)

Section BatchTheorems.

Import Registry RegistrySpec Pipeline PipelineSpec LookupFacts.
Local Open Scope list_scope.

Lemma for_each_all {A : Type} (l : list A) (body : A -> Run unit) :
  (forall a, In a l -> snd (body a) = Ok tt) ->
  for_each l body = (flat_map (fun a => fst (body a)) l, Ok tt).
Proof.
  induction l as [|a l IH]; intro H; simpl; [reflexivity|].
  pose proof (H a (or_introl eq_refl)) as Ha.
  destruct (body a) as [t r]. simpl in Ha. subst r. simpl.
  rewrite IH by (intros b Hb; apply H; now right). reflexivity.
Qed.

Lemma filter_none {A : Type} (test : A -> bool) (l : list A) :
  (forall a, In a l -> test a = false) -> filter test l = [].
Proof.
  induction l as [|a l IH]; intro H; simpl; [reflexivity|].
  rewrite (H a (or_introl eq_refl)). apply IH. intros b Hb. apply H. now right.
Qed.

(** X20. A batch run whose processors all return leaves their traces
    one after the other, in the order in which their factories were
    registered, and returns. A batch that asks for no indicator, or for
    indicators no registered factory declares, does nothing and returns,
    whatever its other arguments are: the region of interest and the
    grids are not looked at. *)
Theorem batch_runs_in_registration_order (E : Collaborators)
    (registry : list (PostProcessorCreator (PostProcessor E)))
    (indicator_names : list string) (data_path output_path : string) (roi : Roi)
    (res : Z) (variable_names : Argument (option (list string)))
    (roi_grid destination_grid output_format : Argument (option string)) :
  let body post_processor :=
    run_actual_post_processor E post_processor data_path output_path roi res
      (or_default None variable_names) (or_default default_roi_grid roi_grid)
      (or_default None destination_grid)
      (or_default default_output_format output_format) in
  let run :=
    run_post_processing E registry indicator_names data_path output_path roi res
      variable_names roi_grid destination_grid output_format in
  ((forall p, In p (get_post_processors registry indicator_names) ->
              snd (body p) = Ok tt) ->
   run = (flat_map (fun c => fst (body (create_post_processor c
                                          (intersection indicator_names c))))
            (filter (intersects indicator_names) registry),
          Ok tt))
  /\ ((forall c, In c registry -> intersects indicator_names c = false) ->
      run = ([], Ok tt))
  /\ (indicator_names = [] -> run = ([], Ok tt)).
Proof.
  intros body run.
  assert (Hnone : (forall c, In c registry -> intersects indicator_names c = false) ->
                  run = ([], Ok tt)).
  { intro H. unfold run, run_post_processing.
    rewrite processors_are_resolved. unfold resolve_by_indicators.
    now rewrite (filter_none _ _ H). }
  split; [|split; [exact Hnone|]].
  - intro H.
    transitivity (for_each (get_post_processors registry indicator_names) body);
      [reflexivity|].
    rewrite (for_each_all _ _ H), processors_are_resolved.
    unfold resolve_by_indicators. now rewrite flat_map_concat_map, map_map,
      <- flat_map_concat_map.
  - intros ->. apply Hnone. intros c _.
    unfold intersects, intersection, str_in. simpl.
    induction (declared_names c) as [|n l IHl]; simpl; [reflexivity|exact IHl].
Qed.

End BatchTheorems.
